(** * ark-infographic-worker: extraction pipeline and request orchestration

    A shallow embedding of [scripts/extract-data.ts] (the offline extraction
    pipeline) and of [src/index.ts], [src/color-lookup.ts],
    [src/species-data.ts], [src/init.ts] (the request orchestrator), with the
    properties of the specification stated and proved over it. *)

From Stdlib Require Import ZArith Lia Bool List.
From Stdlib.Strings Require Import Byte Ascii String HexString.
From Stdlib Require Import Floats.SpecFloat.
From stdpp Require Import gmap strings list fin_maps.

(** ** JavaScript numbers

    A JavaScript [number] is an IEEE 754 binary64 value.  It is modelled by
    the Standard Library's executable specification of floating point
    arithmetic at precision 53 and maximal exponent 1024; NaN carries no
    payload, as in JavaScript. *)
Module Num.
Local Open Scope Z_scope.

Definition prec : Z := 53.
Definition emax : Z := 1024.

Definition number : Type := spec_float.

(** The doubles among the values of [spec_float]: a finite value has a
    canonical mantissa and an exponent in range. *)
Definition is_double (x : number) : bool := valid_binary prec emax x.

Definition zero : number := S754_zero false.
Definition one : number := S754_finite false 4503599627370496 (-52).

(** [x * y], [x + y], [x > y] and [x === y] of JavaScript on numbers. *)
Definition mul (x y : number) : number := SFmul prec emax x y.
Definition add (x y : number) : number := SFadd prec emax x y.
Definition gt (x y : number) : bool := SFltb y x.
Definition strict_eq (x y : number) : bool := SFeqb x y.

(** Integers as numbers (exact below 2^53 in absolute value). *)
Definition of_Z (z : Z) : number := binary_normalize prec emax z 0 false.

End Num.

Import Num.

(** [v != null], where [None] stands for both [undefined] and [null] of an
    optional, typed value. *)
Definition non_null {A : Type} (v : option A) : bool :=
  match v with Some _ => true | None => false end.

(** [for (let i = 0; i < n; i++) out.push(f(i))] on a fresh array. *)
Definition for_push {A : Type} (n : nat) (f : nat -> A) : list A :=
  f <$> seq 0 n.

(** ** The extraction pipeline ([scripts/extract-data.ts]) *)
Module Extract.

(** [[number, number, number, number]]: a linear RGBA colour. *)
Definition Rgba : Type := number * number * number * number.

(** Per-stat multiplier tuple [[TamingAdd, TamingMult, DomLevel, WildLevel]]. *)
Definition StatMultiplier : Type := number * number * number * number.

(** Raw stat tuple
    [[BaseValue, IncPerWildLevel, IncPerDomLevel, AddWhenTamed, MultAffinity]]. *)
Definition StatTuple : Type := number * number * number * number * number.

(** Positional read [t[i]] of a stat tuple. *)
Definition stat_at (i : nat) (t : StatTuple) : option number :=
  let '(t0, t1, t2, t3, t4) := t in [t0; t1; t2; t3; t4] !! i.

Module RawRegion.
Record t := { name : string; colors : option (list string) }.
End RawRegion.

Module RawSpecies.
Record t := {
  name : string;
  displayedStats : option number;
  statNames : option (list (string * string));
  colors : option (list (option RawRegion.t));
  fullStatsRaw : option (list (option (list number)));
  TamedBaseHealthMultiplier : option number;
  statImprintMult : option (list number)
}.
End RawSpecies.

Module ValuesJson.
Record t := {
  colorDefinitions : list (string * Rgba);
  dyeDefinitions : list (string * Rgba);
  species : list RawSpecies.t
}.
End ValuesJson.

Module ArkColorEntry.
Record t := {
  id : Z;
  name : string;
  linearRgba : Rgba;
  isDye : bool
}.
End ArkColorEntry.

Module SpeciesMetaEntry.
Record t := {
  enabledColorRegions : list bool;
  usedStats : list bool;
  statNames : option (list (string * string));
  colorRegionNames : list (option string);
  fullStatsRaw : list (option StatTuple);
  tamedBaseHealthMultiplier : number;
  statImprintMultipliers : list number
}.
End SpeciesMetaEntry.

(** Base colours take the ids [i + 1], dyes the ids [201 + i], each in the
    order of the input. *)
Definition extractColors (values : ValuesJson.t) : list ArkColorEntry.t :=
  imap (fun i '(name, rgba) =>
          {| ArkColorEntry.id := Z.of_nat i + 1;
             ArkColorEntry.name := name;
             ArkColorEntry.linearRgba := rgba;
             ArkColorEntry.isDye := false |})
       (ValuesJson.colorDefinitions values)
  ++
  imap (fun i '(name, rgba) =>
          {| ArkColorEntry.id := 201 + Z.of_nat i;
             ArkColorEntry.name := name;
             ArkColorEntry.linearRgba := rgba;
             ArkColorEntry.isDye := true |})
       (ValuesJson.dyeDefinitions values).

(** Default per-stat multiplier (identity). *)
Definition DEFAULT_STAT_MULT : StatMultiplier := (one, one, one, one).

Definition applyStatMultiplier (raw : StatTuple) (mult : StatMultiplier)
  : StatTuple :=
  let '(base, incWild, incDom, addTamed, multAff) := raw in
  let '(mult0, mult1, mult2, mult3) := mult in
  (base,
   mul incWild mult3,
   mul incDom mult2,
   mul addTamed (if gt addTamed zero then mult0 else one),
   mul multAff (if gt multAff zero then mult1 else one)).

(** One iteration of the species loop: the entry stored under [sp.name]. *)
Definition speciesEntry (sp : RawSpecies.t)
    (statMultipliers : list (option StatMultiplier)) : SpeciesMetaEntry.t :=
  let regions :=
    match RawSpecies.colors sp with
    | Some colors =>
        for_push 6 (fun i =>
          let region := mjoin (colors !! i) in
          (non_null region, RawRegion.name <$> region))
    | None => for_push 6 (fun _ => (false, None))
    end in
  let fullStatsRaw :=
    for_push 12 (fun i =>
      match mjoin (mjoin ((.!! i) <$> RawSpecies.fullStatsRaw sp)) with
      | Some (r0 :: r1 :: r2 :: r3 :: r4 :: _) =>
          let tuple := (r0, r1, r2, r3, r4) in
          let mult := default DEFAULT_STAT_MULT (mjoin (statMultipliers !! i)) in
          Some (applyStatMultiplier tuple mult)
      | _ => None
      end) in
  let usedStats :=
    for_push 12 (fun i => non_null (mjoin (fullStatsRaw !! i))) in
  let statImprintMultipliers :=
    for_push 12 (fun i =>
      default zero (mjoin ((.!! i) <$> RawSpecies.statImprintMult sp))) in
  {| SpeciesMetaEntry.enabledColorRegions := fst <$> regions;
     SpeciesMetaEntry.usedStats := usedStats;
     SpeciesMetaEntry.statNames := RawSpecies.statNames sp;
     SpeciesMetaEntry.colorRegionNames := snd <$> regions;
     SpeciesMetaEntry.fullStatsRaw := fullStatsRaw;
     SpeciesMetaEntry.tamedBaseHealthMultiplier :=
       default one (RawSpecies.TamedBaseHealthMultiplier sp);
     SpeciesMetaEntry.statImprintMultipliers := statImprintMultipliers |}.

(** [meta[key] = entry] on a plain object: an own property is written,
    except for the key [__proto__], whose assignment replaces the
    prototype and leaves the own properties as they were. *)
Definition assign (meta : gmap string SpeciesMetaEntry.t) (key : string)
    (entry : SpeciesMetaEntry.t) : gmap string SpeciesMetaEntry.t :=
  if decide (key = "__proto__") then meta else <[key := entry]> meta.

Definition extractSpeciesMeta (values : ValuesJson.t)
    (statMultipliers : list (option StatMultiplier))
  : gmap string SpeciesMetaEntry.t :=
  foldl (fun meta sp =>
           assign meta (RawSpecies.name sp) (speciesEntry sp statMultipliers))
        ∅ (ValuesJson.species values).

Module ServerMultipliersJson.
Record t := {
  serverMultiplierDictionary : gmap string (option (list (option StatMultiplier)))
}.
End ServerMultipliersJson.

(** The multipliers of the selected preset (lines 215-229).  [smJson] is
    [None] when [serverMultipliers.json] cannot be read or parsed; a preset
    that is absent or has no [statMultipliers] leaves the default, an
    array of twelve [null]. *)
Definition loadStatMultipliers (smJson : option ServerMultipliersJson.t)
    (preset : string) : list (option StatMultiplier) :=
  match smJson with
  | Some sm =>
      match ServerMultipliersJson.serverMultiplierDictionary sm !! preset with
      | Some (Some statMultipliers) => statMultipliers
      | _ => replicate 12 None
      end
  | None => replicate 12 None
  end.

End Extract.


(** [l] cut into runs of [n] elements (the last one may be shorter). *)
Fixpoint chunks {A : Type} (fuel n : nat) (l : list A) : list (list A) :=
  match fuel with
  | O => []
  | S fuel' =>
      match l with
      | [] => []
      | _ => take n l :: chunks fuel' n (drop n l)
      end
  end.

(** ** Platform primitive: SHA-256

    [crypto.subtle.digest("SHA-256", data)] of the Web Crypto API, written
    out after FIPS 180-4 on 32-bit words held in [Z]. *)
Module SHA256.
Local Open Scope Z_scope.

Definition word (x : Z) : Z := x mod 4294967296.

Definition rotr (n x : Z) : Z :=
  Z.lor (Z.shiftr x n) (word (Z.shiftl x (32 - n))).

Definition Ch (x y z : Z) : Z :=
  Z.lxor (Z.land x y) (Z.land (Z.lxor x 4294967295) z).
Definition Maj (x y z : Z) : Z :=
  Z.lxor (Z.lxor (Z.land x y) (Z.land x z)) (Z.land y z).
Definition Sigma0 (x : Z) : Z :=
  Z.lxor (Z.lxor (rotr 2 x) (rotr 13 x)) (rotr 22 x).
Definition Sigma1 (x : Z) : Z :=
  Z.lxor (Z.lxor (rotr 6 x) (rotr 11 x)) (rotr 25 x).
Definition sigma0 (x : Z) : Z :=
  Z.lxor (Z.lxor (rotr 7 x) (rotr 18 x)) (Z.shiftr x 3).
Definition sigma1 (x : Z) : Z :=
  Z.lxor (Z.lxor (rotr 17 x) (rotr 19 x)) (Z.shiftr x 10).

(** The first 64 primes. *)
Definition primes : list Z :=
  [2; 3; 5; 7; 11; 13; 17; 19; 23; 29; 31; 37; 41; 43; 47; 53;
   59; 61; 67; 71; 73; 79; 83; 89; 97; 101; 103; 107; 109; 113; 127; 131;
   137; 139; 149; 151; 157; 163; 167; 173; 179; 181; 191; 193; 197; 199;
   211; 223; 227; 229; 233; 239; 241; 251; 257; 263; 269; 271; 277; 281;
   283; 293; 307; 311].

(** Integer cube root by bisection: the [r] with [r^3 <= n < (r+1)^3],
    searched between [lo] and [hi]. *)
Fixpoint cbrt_between (fuel : nat) (lo hi n : Z) : Z :=
  match fuel with
  | O => lo
  | S fuel' =>
      if hi - lo <=? 1 then lo
      else
        let mid := (lo + hi) / 2 in
        if mid * mid * mid <=? n then cbrt_between fuel' mid hi n
        else cbrt_between fuel' lo mid n
  end.

(** Round constants: the first 32 bits of the fractional parts of the
    cube roots of the first 64 primes. *)
Definition K : list Z :=
  Eval vm_compute in
    (fun p => word (cbrt_between 64 0 (2 ^ 36) (p * 2 ^ 96))) <$> primes.

(** Initial hash value: the first 32 bits of the fractional parts of the
    square roots of the first 8 primes. *)
Definition H0 : list Z :=
  Eval vm_compute in
    (fun p => word (Z.sqrt (p * 2 ^ 64))) <$> take 8 primes.

(** Big-endian value of a run of bytes, and the bytes of a word. *)
Definition be_value (bs : list Z) : Z := foldl (fun acc b => acc * 256 + b) 0 bs.

Definition be_bytes (n : nat) (x : Z) : list Z :=
  (fun i => (x / 256 ^ Z.of_nat i) mod 256) <$> reverse (seq 0 n).

(** Padding: a 1 bit, zero bits up to 56 modulo 64 bytes, and the length
    of the message in bits on 64 bits. *)
Definition pad (msg : list Z) : list Z :=
  let len := Z.of_nat (length msg) in
  msg ++ [128] ++ replicate (Z.to_nat ((55 - len) mod 64)) 0 ++ be_bytes 8 (8 * len).

(** Message schedule of a block of sixteen words. *)
Definition schedule_step (w : list Z) : list Z :=
  let t := length w in
  w ++ [word (sigma1 (nth (t - 2) w 0) + nth (t - 7) w 0
              + sigma0 (nth (t - 15) w 0) + nth (t - 16) w 0)].

Definition schedule (block : list Z) : list Z := Nat.iter 48 schedule_step block.

Definition State : Type := Z * Z * Z * Z * Z * Z * Z * Z.

Definition initial : State :=
  match H0 with
  | [a; b; c; d; e; f; g; h] => (a, b, c, d, e, f, g, h)
  | _ => (0, 0, 0, 0, 0, 0, 0, 0)
  end.

Definition round (s : State) (kw : Z * Z) : State :=
  let '(a, b, c, d, e, f, g, h) := s in
  let t1 := word (h + Sigma1 e + Ch e f g + fst kw + snd kw) in
  let t2 := word (Sigma0 a + Maj a b c) in
  (word (t1 + t2), a, b, c, word (d + t1), e, f, g).

Definition compress (s : State) (block : list Z) : State :=
  let '(a, b, c, d, e, f, g, h) := s in
  let '(a', b', c', d', e', f', g', h') :=
    foldl round s (zip K (schedule block)) in
  (word (a + a'), word (b + b'), word (c + c'), word (d + d'),
   word (e + e'), word (f + f'), word (g + g'), word (h + h')).

Definition byte_of_Z (z : Z) : byte :=
  Ascii.byte_of_ascii (Ascii.ascii_of_N (Z.to_N z)).

Definition output (s : State) : list byte :=
  let '(a, b, c, d, e, f, g, h) := s in
  byte_of_Z <$> ([a; b; c; d; e; f; g; h] ≫= be_bytes 4).

Definition digest (data : list byte) : list byte :=
  let padded := pad ((fun b => Z.of_N (Byte.to_N b)) <$> data) in
  let blocks := chunks (length padded) 64 padded in
  output (foldl (fun s block => compress s (be_value <$> chunks 16 4 block))
                initial blocks).

End SHA256.

(** ** JavaScript values at run time

    What [request.json()] can deliver, and the operators the worker applies
    to it.  [None] of [option Json.t] is [undefined]. *)
Module Json.
#[local] Unset Elimination Schemes.
Inductive t :=
| Null
| Bool (b : bool)
| Num (n : number)
| Str (s : string)
| Arr (items : list t)
| Obj (members : list (string * t)).
End Json.

(** Exceptions: a [TypeError] of the language, or a failure raised by an
    external collaborator. *)
Inductive exn :=
| TypeError (what : string)
| Failure (what : string).

Module Js.
Import Json.

(** An object is the list of its members in source order; as with
    [JSON.parse] and object spread, the last binding of a key is its
    value. *)
Definition lookup_member (members : list (string * Json.t)) (key : string)
  : option Json.t :=
  foldl (fun found '(k, v) => if String.eqb k key then Some v else found)
        None members.

(** [o.key] on a value that is neither [null] nor [undefined], for a key
    that no built-in prototype defines. *)
Definition get (o : Json.t) (key : string) : option Json.t :=
  match o with
  | Obj members => lookup_member members key
  | _ => None
  end.

Definition nullish (v : option Json.t) : bool :=
  match v with
  | None | Some Null => true
  | Some _ => false
  end.

(** [v.key]: a [TypeError] on [null] and [undefined]. *)
Definition member (v : option Json.t) (key : string) : exn + option Json.t :=
  match v with
  | None | Some Null =>
      inl (TypeError ("Cannot read properties of null or undefined (reading '"
                        +:+ key +:+ "')"))
  | Some o => inr (get o key)
  end.

(** [v?.key] *)
Definition optional_member (v : option Json.t) (key : string) : option Json.t :=
  match v with
  | None | Some Null => None
  | Some o => get o key
  end.

(** [v ?? d] *)
Definition coalesce (v : option Json.t) (d : Json.t) : Json.t :=
  match v with
  | None | Some Null => d
  | Some x => x
  end.

(** Truthiness, as tested by [!v], [v ? a : b] and [a || b]. *)
Definition truthy (v : option Json.t) : bool :=
  match v with
  | None | Some Null => false
  | Some (Bool b) => b
  | Some (Num (S754_zero _)) | Some (Num S754_nan) => false
  | Some (Num _) => true
  | Some (Str s) => negb (String.eqb s "")
  | Some (Arr _) | Some (Obj _) => true
  end.

(** [Array.isArray(v)] and [v.length] of an array. *)
Definition isArray (v : option Json.t) : bool :=
  match v with Some (Arr _) => true | _ => false end.

Definition items (v : Json.t) : list Json.t :=
  match v with Arr l => l | _ => [] end.

(** [v !== 0] *)
Definition strict_ne_zero (v : Json.t) : bool :=
  match v with
  | Num n => negb (strict_eq n zero)
  | _ => true
  end.

(** [v === s] for a string literal [s]. *)
Definition strict_eq_string (v : Json.t) (s : string) : bool :=
  match v with
  | Str s' => String.eqb s' s
  | _ => false
  end.

(** Operands on which [+] is numeric addition without going through a
    string: numbers, booleans and [null]. *)
Definition numeric (v : Json.t) : bool :=
  match v with
  | Num _ | Bool _ | Null => true
  | _ => false
  end.

(** The coercions of the language on values outside the declared request
    type are left to the run time: [ToString] of a value that is not a
    string, [ToNumber] of a string, array or object, an indexed read of a
    value that is not an array, and the own properties of a string or an
    array. *)
Class Runtime := {
  ToString : Json.t -> string;
  ToNumber : Json.t -> number;
  IndexOf : Json.t -> nat -> option Json.t;
  OwnProperties : Json.t -> list (string * Json.t)
}.

Section Coercions.
Context `{Runtime}.

Definition to_string (v : Json.t) : string :=
  match v with
  | Str s => s
  | _ => ToString v
  end.

Definition to_number (v : Json.t) : number :=
  match v with
  | Num n => n
  | Bool true => one
  | Bool false | Null => zero
  | _ => ToNumber v
  end.

(** [a + b] *)
Definition plus (a b : Json.t) : Json.t :=
  if numeric a && numeric b then Num (add (to_number a) (to_number b))
  else Str (to_string a +:+ to_string b).

(** [a > b] against a number [b]. *)
Definition greater (a : Json.t) (b : number) : bool :=
  gt (to_number a) b.

(** [v[i]] *)
Definition index (v : Json.t) (i : nat) : option Json.t :=
  match v with
  | Arr l => l !! i
  | _ => IndexOf v i
  end.

(** The own enumerable properties copied by a spread or a rest
    pattern. *)
Definition own_properties (v : Json.t) : list (string * Json.t) :=
  match v with
  | Obj members => members
  | Num _ | Bool _ | Null => []
  | _ => OwnProperties v
  end.
End Coercions.

End Js.

(** ** The worker ([src/index.ts] and the modules it imports) *)
Module Worker.
Import Js.
Module SpeciesMetaEntry := Extract.SpeciesMetaEntry.
Module ArkColorEntry := Extract.ArkColorEntry.

(** [Color] and [SrgbColor] of the rendering library. *)
Module Color.
Record t := { r : number; g : number; b : number; a : number }.
End Color.
Definition SrgbColor : Type := number * number * number.

(** What [speciesMap[name]] evaluates to when it is not [undefined]: an
    entry of the bundled species table, or, the table being a plain
    object, a member inherited from [Object.prototype]. *)
Inductive SpeciesValue :=
| Entry (e : SpeciesMetaEntry.t)
| Inherited (key : string).

Module CreatureData.
Record t := {
  speciesName : Json.t;
  creatureName : Json.t;
  sex : Json.t;
  isNeutered : Json.t;
  isMutagenApplied : Json.t;
  isBred : Json.t;
  levelsWild : Json.t;
  levelsDom : Json.t;
  levelsMutated : Json.t;
  valuesBreeding : Json.t;
  valuesCurrent : Json.t;
  colors : Json.t;
  tamingEffectiveness : Json.t;
  imprintingBonus : Json.t;
  mutations : Json.t;
  generation : Json.t;
  level : Json.t;
  levelHatched : Json.t
}.
End CreatureData.

Module Request.
(** [pathname] is [new URL(request.url).pathname]; [body] is the raw
    text of the request body. *)
Record t := { pathname : string; method : string; body : string }.
End Request.

Inductive ResponseBody :=
| Text (s : string)
| JsonText (v : Json.t)
| Bytes (data : list byte).

Module Response.
Record t := {
  status : Z;
  contentType : string;
  cacheControl : option string;
  body : ResponseBody
}.
End Response.

Inductive Format := Svg | Png.

(** The arguments of a call of the renderer. *)
Module RenderCall.
Record t := {
  creature : CreatureData.t;
  species : SpeciesValue;
  server : list (string * Json.t);
  config : list (string * Json.t);
  creatureImageDataUri : option string
}.
End RenderCall.

(** External collaborators: the platform ([request.json()], [btoa], the
    sprite bucket), the [ark-infographic] library, and the two data files
    bundled with the worker. *)
Class Platform := {
  JSON_parse : string -> option Json.t;
  btoa : string -> string;
  SPRITES_get : string -> exn + option (list byte);
  computeStatValues :
    SpeciesValue -> Json.t -> Json.t -> Json.t -> Json.t -> Json.t -> Json.t ->
    exn + (Json.t * Json.t);
  arkColorToSrgb : ArkColorEntry.t -> SrgbColor;
  colorizeCreature :
    list byte -> list byte -> list (option SrgbColor) -> exn + list byte;
  renderInfoGraphicSvg : RenderCall.t -> exn + string;
  renderInfoGraphicPng : RenderCall.t -> exn + list byte;
  initRasterizer : exn + unit;
  DEFAULT_CONFIG : list (string * Json.t);
  DEFAULT_SERVER_SETTINGS : list (string * Json.t);
  colorsJson : list ArkColorEntry.t;
  speciesMetaJson : gmap string SpeciesMetaEntry.t
}.

(** Observable steps of a request, in the order they are taken. *)
Inductive Event :=
| CacheMatch (key : string)
| SpeciesLookup (name : string)
| ComputeStats (species : SpeciesValue)
| SpriteGet (key : string)
| Colorize (regionColors : list (option SrgbColor))
| ConsoleError (err : exn)
| InitRasterizer
| Render (format : Format) (call : RenderCall.t)
| CachePut (key : string).

(** State outside the request: the shared response cache, the
    [initialized] flag of [src/init.ts], and the steps taken so far. *)
Module World.
Record t := {
  cache : gmap string Response.t;
  initialized : bool;
  log : list Event
}.
End World.

(** *** The monad of the handler: state and exceptions *)
Inductive Result (A : Type) :=
| Ok (a : A)
| Throw (e : exn).
Arguments Ok {A} a.
Arguments Throw {A} e.

Definition M (A : Type) : Type := World.t -> Result A * World.t.

#[export] Instance M_ret : MRet M := fun A a w => (Ok a, w).
#[export] Instance M_bind : MBind M := fun A B k m w =>
  match m w with
  | (Ok a, w') => k a w'
  | (Throw e, w') => (Throw e, w')
  end.

Definition throw {A : Type} (e : exn) : M A := fun w => (Throw e, w).

Definition lift {A : Type} (r : exn + A) : M A :=
  match r with
  | inl e => throw e
  | inr a => mret a
  end.

(** [try { body } catch (err) { handler(err) }] *)
Definition try_catch {A : Type} (body : M A) (handler : exn -> M A) : M A :=
  fun w =>
    match body w with
    | (Ok a, w') => (Ok a, w')
    | (Throw e, w') => handler e w'
    end.

Definition get_world : M World.t := fun w => (Ok w, w).
Definition modify (f : World.t -> World.t) : M unit := fun w => (Ok tt, f w).

(** The world after the steps [evs] have been observed. *)
Definition record (evs : list Event) (w : World.t) : World.t :=
  {| World.cache := World.cache w;
     World.initialized := World.initialized w;
     World.log := World.log w ++ evs |}.

Definition emit (ev : Event) : M unit := modify (record [ev]).

(** The steps of the sprite stage. *)
Definition sprite_step (ev : Event) : Prop :=
  match ev with
  | SpriteGet _ | Colorize _ | ConsoleError _ => True
  | _ => False
  end.

(** [cache.match(key)] and [ctx.waitUntil(cache.put(key, response.clone()))] *)
Definition cache_match (key : string) : M (option Response.t) :=
  _ ← emit (CacheMatch key);
  w ← get_world;
  mret (World.cache w !! key).

Definition cache_put (key : string) (response : Response.t) : M unit :=
  _ ← emit (CachePut key);
  modify (fun w => {| World.cache := <[key := response]> (World.cache w);
                      World.initialized := World.initialized w;
                      World.log := World.log w |}).

(** *** [buildCacheKey] and its helpers *)

(** [n.toString(16)] of a natural number. *)
Definition toString16 (n : N) : string :=
  match n with
  | N0 => "0"
  | Npos p => HexString.Raw.of_pos p ""
  end.

(** [s.padStart(targetLength, padString)] *)
Definition padStart (targetLength : nat) (padString s : string) : string :=
  let fillLen := (targetLength - String.length s)%nat in
  let pad := list_ascii_of_string padString in
  string_of_list_ascii (take fillLen (mjoin (replicate fillLen pad))) +:+ s.

Definition CACHE_PREFIX : string := "https://cache.internal/infographic:".

(** The URL of the request that keys the cache entry.  A string is held
    as the bytes of its UTF-8 encoding, which is what [TextEncoder]
    produces. *)
Definition buildCacheKey (request : Request.t) : string :=
  let body := Request.body request in
  let data := list_byte_of_string body in
  let hashArray := SHA256.digest data in
  let hashHex :=
    String.concat ""
      ((fun b => padStart 2 "0" (toString16 (Byte.to_N b))) <$> hashArray) in
  CACHE_PREFIX +:+ hashHex.

Definition Response_json (data : Json.t) (status : Z) : Response.t :=
  {| Response.status := status;
     Response.contentType := "application/json";
     Response.cacheControl := None;
     Response.body := JsonText data |}.

Definition Response_text (text : string) (status : Z) : Response.t :=
  {| Response.status := status;
     Response.contentType := "text/plain;charset=UTF-8";
     Response.cacheControl := None;
     Response.body := Text text |}.

Definition error_response (message : string) : Response.t :=
  Response_json (Json.Obj [("error", Json.Str message)]) 400.

Definition MISSING_FIELDS : string :=
  "Missing required fields: creature.speciesName, creature.levelsWild, creature.levelsDom".
Definition BAD_LEVELS : string :=
  "levelsWild and levelsDom must be arrays of exactly 12 numbers".

(** An array of exactly twelve entries. *)
Definition twelve (v : option Json.t) : Prop :=
  exists l, v = Some (Json.Arr l) /\ length l = 12%nat.

(** The own property names of [Object.prototype]. *)
Definition Object_prototype_keys : list string :=
  ["constructor"; "__defineGetter__"; "__defineSetter__"; "hasOwnProperty";
   "__lookupGetter__"; "__lookupSetter__"; "isPrototypeOf";
   "propertyIsEnumerable"; "toString"; "valueOf"; "__proto__";
   "toLocaleString"].

Section Handlers.
Context `{Runtime} `{Platform}.

(** *** [src/color-lookup.ts] *)
Definition LIGHT_GRAY : Color.t :=
  {| Color.r := of_Z 211; Color.g := of_Z 211; Color.b := of_Z 211;
     Color.a := of_Z 255 |}.

(** Key equality of a [Map]: SameValueZero. *)
Definition same_value_zero (x y : number) : bool :=
  match x, y with
  | S754_nan, S754_nan => true
  | _, _ => strict_eq x y
  end.

(** [colorMap.get(key)] once the module has run its loop of
    [colorMap.set(entry.id, ...)] over [colors.json]. *)
Definition colorMap_get (key : Json.t) : option Color.t :=
  match key with
  | Json.Num n =>
      foldl (fun found entry =>
               if same_value_zero (of_Z (ArkColorEntry.id entry)) n then
                 let '(r, g, b) := arkColorToSrgb entry in
                 Some {| Color.r := r; Color.g := g; Color.b := b;
                         Color.a := of_Z 255 |}
               else found)
            None colorsJson
  | _ => None
  end.

Definition getColor (colorId : Json.t) : Color.t :=
  if negb (strict_ne_zero colorId) then LIGHT_GRAY
  else default LIGHT_GRAY (colorMap_get colorId).

(** *** [src/species-data.ts] *)
Definition getSpeciesInfo (name : string) : option SpeciesValue :=
  match speciesMetaJson !! name with
  | Some e => Some (Entry e)
  | None =>
      if bool_decide (name ∈ Object_prototype_keys) then Some (Inherited name)
      else None
  end.

(** The order of [Object.keys] is not modelled. *)
Definition getSpeciesNames : list string := (map_to_list speciesMetaJson).*1.

(** *** [src/init.ts] *)
Definition ensureInitialized : M unit :=
  w ← get_world;
  if World.initialized w then mret tt
  else
    _ ← emit InitRasterizer;
    _ ← lift initRasterizer;
    modify (fun w => {| World.cache := World.cache w;
                        World.initialized := true;
                        World.log := World.log w |}).

(** *** [src/index.ts] *)
Definition handleSpeciesList : Response.t :=
  Response_json (Json.Arr (Json.Str <$> getSpeciesNames)) 200.

Definition uint8ArrayToBase64 (bytes : list byte) : string :=
  let chunkSize := Z.to_nat 8192 in
  btoa (foldl (fun binary chunk => binary +:+ string_of_list_byte chunk)
              "" (chunks (length bytes) chunkSize bytes)).

(** One turn of the loop over the six colour regions (lines 164-172). *)
Definition regionColor (e : SpeciesMetaEntry.t) (colors : Json.t) (i : nat)
  : option SrgbColor :=
  let colorId := coalesce (index colors i) (Json.Num zero) in
  if default false (SpeciesMetaEntry.enabledColorRegions e !! i)
     && strict_ne_zero colorId
  then
    let c := getColor colorId in
    Some (Color.r c, Color.g c, Color.b c)
  else None.

(** The loop itself.  On a value inherited from [Object.prototype],
    [species.enabledColorRegions] is [undefined] and its first indexed
    read throws. *)
Definition resolveRegionColors (species : SpeciesValue) (colors : Json.t)
  : exn + list (option SrgbColor) :=
  match species with
  | Entry e => inr (for_push 6 (regionColor e colors))
  | Inherited _ =>
      inl (TypeError "Cannot read properties of undefined (reading '0')")
  end.

(** Fetch creature images from R2 and colorize (lines 148-183). *)
Definition acquireImage (speciesName game : Json.t) (species : SpeciesValue)
    (colors : Json.t) : M (option string) :=
  try_catch
    (let suffix := if strict_eq_string game "ASA" then "_ASA" else "" in
     let baseKey := to_string speciesName +:+ suffix +:+ ".png" in
     let maskKey := to_string speciesName +:+ suffix +:+ "_m.png" in
     _ ← emit (SpriteGet baseKey);
     _ ← emit (SpriteGet maskKey);
     baseObj ← lift (SPRITES_get baseKey);
     maskObj ← lift (SPRITES_get maskKey);
     match baseObj with
     | Some baseBytes =>
         imageBytes ←
           match maskObj with
           | Some maskBytes =>
               regionColors ← lift (resolveRegionColors species colors);
               _ ← emit (Colorize regionColors);
               lift (colorizeCreature baseBytes maskBytes regionColors)
           | None => mret baseBytes
           end;
         mret (Some ("data:image/png;base64," +:+ uint8ArrayToBase64 imageBytes))
     | None => mret None
     end)
    (fun err => _ ← emit (ConsoleError err); mret None).

(** Render, store in the cache, respond (lines 185-229). *)
Definition renderAndCache (cacheKey : string) (body : Json.t)
    (call : RenderCall.t) : M Response.t :=
  let format :=
    coalesce (optional_member (get body "options") "format") (Json.Str "svg") in
  response ←
    (if strict_eq_string format "png" then
       _ ← ensureInitialized;
       _ ← emit (Render Png call);
       png ← lift (renderInfoGraphicPng call);
       mret {| Response.status := 200;
               Response.contentType := "image/png";
               Response.cacheControl := Some "public, max-age=86400";
               Response.body := Bytes png |}
     else
       _ ← emit (Render Svg call);
       svg ← lift (renderInfoGraphicSvg call);
       mret {| Response.status := 200;
               Response.contentType := "image/svg+xml";
               Response.cacheControl := Some "public, max-age=86400";
               Response.body := Text svg |});
  _ ← cache_put cacheKey response;
  mret response.

(** Defaults for optional creature fields (lines 91-95). *)
Definition isBred (c : Json.t) : Json.t := coalesce (get c "isBred") (Json.Bool false).
Definition tamingEffectiveness (c : Json.t) : Json.t :=
  coalesce (get c "tamingEffectiveness") (Json.Num zero).
Definition imprintingBonus (c : Json.t) : Json.t :=
  coalesce (get c "imprintingBonus") (Json.Num zero).

(** Compute stat values from species base stats and levels
    (lines 97-107). *)
Definition statValues (c : Json.t) (species : SpeciesValue)
    (levelsWild levelsDom : Json.t) : exn + (Json.t * Json.t) :=
  let isTamed :=
    if truthy (Some (isBred c)) then isBred c
    else Json.Bool (greater (tamingEffectiveness c) zero) in
  computeStatValues species levelsWild levelsDom
    (coalesce (get c "levelsMutated") Json.Null)
    isTamed
    (if truthy (Some (isBred c)) then Json.Num one else tamingEffectiveness c)
    (imprintingBonus c).

(** The creature handed to the renderer (lines 109-132). *)
Definition buildCreature (c speciesName levelsWild levelsDom : Json.t)
    (values : Json.t * Json.t) : CreatureData.t :=
  let torpidityWild := coalesce (index levelsWild 2) (Json.Num zero) in
  let domSum := foldl plus (Json.Num zero) (items levelsDom) in
  {| CreatureData.speciesName := speciesName;
     CreatureData.creatureName := coalesce (get c "creatureName") (Json.Str "");
     CreatureData.sex := coalesce (get c "sex") (Json.Num zero);
     CreatureData.isNeutered := coalesce (get c "isNeutered") (Json.Bool false);
     CreatureData.isMutagenApplied :=
       coalesce (get c "isMutagenApplied") (Json.Bool false);
     CreatureData.isBred := isBred c;
     CreatureData.levelsWild := levelsWild;
     CreatureData.levelsDom := levelsDom;
     CreatureData.levelsMutated := coalesce (get c "levelsMutated") Json.Null;
     CreatureData.valuesBreeding := fst values;
     CreatureData.valuesCurrent := snd values;
     CreatureData.colors :=
       coalesce (get c "colors") (Json.Arr (replicate 6 (Json.Num zero)));
     CreatureData.tamingEffectiveness := tamingEffectiveness c;
     CreatureData.imprintingBonus := imprintingBonus c;
     CreatureData.mutations := coalesce (get c "mutations") (Json.Num zero);
     CreatureData.generation := coalesce (get c "generation") (Json.Num zero);
     CreatureData.level := plus (plus torpidityWild (Json.Num one)) domSum;
     CreatureData.levelHatched := plus torpidityWild (Json.Num one) |}.

(** Merged configuration and server settings (lines 134-145): of a
    spread, the later member of a key is its value. *)
Definition mergeConfig (body : Json.t) : list (string * Json.t) :=
  let configOverrides :=
    filter (fun kv => kv.1 ≠ "format")
           (own_properties (coalesce (get body "options") (Json.Obj []))) in
  DEFAULT_CONFIG ++ configOverrides.

Definition game (body : Json.t) : Json.t := coalesce (get body "game") (Json.Str "ASA").

Definition serverSettings (body : Json.t) : list (string * Json.t) :=
  DEFAULT_SERVER_SETTINGS ++ [("game", game body)].

(** From the species lookup to the call of the renderer
    (lines 81-183). *)
Definition handleValidated (cacheKey : string) (body c : Json.t)
    (speciesName levelsWild levelsDom : Json.t) : M Response.t :=
  _ ← emit (SpeciesLookup (to_string speciesName));
  match getSpeciesInfo (to_string speciesName) with
  | None => mret (error_response ("Unknown species: " +:+ to_string speciesName))
  | Some species =>
      _ ← emit (ComputeStats species);
      values ← lift (statValues c species levelsWild levelsDom);
      let creature := buildCreature c speciesName levelsWild levelsDom values in
      creatureImageDataUri ←
        acquireImage speciesName (game body) species (CreatureData.colors creature);
      renderAndCache cacheKey body
        {| RenderCall.creature := creature;
           RenderCall.species := species;
           RenderCall.server := serverSettings body;
           RenderCall.config := mergeConfig body;
           RenderCall.creatureImageDataUri := creatureImageDataUri |}
  end.

(** Cache probe, parsing and validation (lines 53-79).  The reads of
    [levelsWild] and [levelsDom] are evaluated only after [speciesName]
    was found truthy, hence on a [creature] that is not nullish, where
    [.] and [?.] agree.  Past validation the four values are defined, and
    [coalesce v Json.Null] is the value [v] itself. *)
Definition handleInfographic (request : Request.t) : M Response.t :=
  let cacheKey := buildCacheKey request in
  cached ← cache_match cacheKey;
  match cached with
  | Some hit => mret hit
  | None =>
      match JSON_parse (Request.body request) with
      | None => mret (error_response "Invalid JSON body")
      | Some body =>
          creature ← lift (member (Some body) "creature");
          let speciesName := optional_member creature "speciesName" in
          let levelsWild := optional_member creature "levelsWild" in
          let levelsDom := optional_member creature "levelsDom" in
          if negb (truthy speciesName) || negb (truthy levelsWild)
             || negb (truthy levelsDom)
          then mret (error_response MISSING_FIELDS)
          else if negb (isArray levelsWild)
                  || negb (length (items (coalesce levelsWild Json.Null)) =? 12)%nat
                  || negb (isArray levelsDom)
                  || negb (length (items (coalesce levelsDom Json.Null)) =? 12)%nat
          then mret (error_response BAD_LEVELS)
          else
            handleValidated cacheKey body
              (coalesce creature Json.Null)
              (coalesce speciesName Json.Null)
              (coalesce levelsWild Json.Null)
              (coalesce levelsDom Json.Null)
      end
  end.

Definition fetch (request : Request.t) : M Response.t :=
  if String.eqb (Request.pathname request) "/api/infographic"
     && String.eqb (Request.method request) "POST"
  then handleInfographic request
  else if String.eqb (Request.pathname request) "/api/species"
          && String.eqb (Request.method request) "GET"
  then mret handleSpeciesList
  else if String.eqb (Request.pathname request) "/api/health"
  then mret (Response_text "OK" 200)
  else mret (Response_text "Not Found" 404).

End Handlers.

End Worker.

(** ** Sample data

    A small upstream document, the tables extracted from it, stand-ins for
    the external collaborators, and a few requests. *)
Module Samples.
Import Js Worker.

(** JSON text written with ['] for the double quote. *)
Definition json_text (s : string) : string :=
  string_of_list_ascii
    ((fun ch => if Ascii.eqb ch "'"%char then ascii_of_nat 34 else ch)
       <$> list_ascii_of_string s).

Definition half : number := S754_finite false 4503599627370496 (-53).
Definition opaque : Extract.Rgba := (one, one, one, one).

Definition rex : Extract.RawSpecies.t :=
  {| Extract.RawSpecies.name := "Rex";
     Extract.RawSpecies.displayedStats := None;
     Extract.RawSpecies.statNames := None;
     Extract.RawSpecies.colors :=
       Some [Some {| Extract.RawRegion.name := "Body"; Extract.RawRegion.colors := None |};
             Some {| Extract.RawRegion.name := "Spine"; Extract.RawRegion.colors := None |};
             Some {| Extract.RawRegion.name := "Belly"; Extract.RawRegion.colors := None |};
             None;
             Some {| Extract.RawRegion.name := "Back"; Extract.RawRegion.colors := None |};
             Some {| Extract.RawRegion.name := "Legs"; Extract.RawRegion.colors := None |}];
     Extract.RawSpecies.fullStatsRaw :=
       Some [Some [of_Z 1100; half; half; half; of_Z (-3)];
             None;
             Some [of_Z 1550; half; zero; half; zero]];
     Extract.RawSpecies.TamedBaseHealthMultiplier := None;
     Extract.RawSpecies.statImprintMult := None |}.

Definition values : Extract.ValuesJson.t :=
  {| Extract.ValuesJson.colorDefinitions := [("Red", opaque); ("Blue", opaque)];
     Extract.ValuesJson.dyeDefinitions := [("Black Dye", opaque)];
     Extract.ValuesJson.species := [rex] |}.

Definition statMultipliers : list (option Extract.StatMultiplier) :=
  [Some (of_Z 2, of_Z 3, of_Z 4, of_Z 5); None].

(** An upstream document with 201 base colours and one dye. *)
Definition crowded : Extract.ValuesJson.t :=
  {| Extract.ValuesJson.colorDefinitions := replicate 201 ("Base", opaque);
     Extract.ValuesJson.dyeDefinitions := [("Dye", opaque)];
     Extract.ValuesJson.species := [] |}.

Definition number_array (l : list Z) : Json.t := Json.Arr ((fun z => Json.Num (of_Z z)) <$> l).

Definition creature_fields (speciesName : string) : list (string * Json.t) :=
  [("speciesName", Json.Str speciesName);
   ("levelsWild", number_array [0; 0; 10; 0; 0; 0; 0; 0; 0; 0; 0; 0]%Z);
   ("levelsDom", number_array [0; 0; 0; 0; 0; 0; 0; 0; 0; 0; 0; 0]%Z)].

(** Scenario 1 of the specification, with a [level] supplied by the
    caller on top. *)
Definition rex_text : string :=
  json_text "{'creature':{'speciesName':'Rex','levelsWild':[0,0,10,0,0,0,0,0,0,0,0,0],'levelsDom':[0,0,0,0,0,0,0,0,0,0,0,0],'level':999,'colors':[1,0,0,2,201,7]}}".
Definition rex_body : Json.t :=
  Json.Obj [("creature",
             Json.Obj (creature_fields "Rex"
                       ++ [("level", Json.Num (of_Z 999));
                           ("colors", number_array [1; 0; 0; 2; 201; 7]%Z)]))].

Definition unicorn_text : string :=
  json_text "{'creature':{'speciesName':'Unicorn','levelsWild':[0,0,10,0,0,0,0,0,0,0,0,0],'levelsDom':[0,0,0,0,0,0,0,0,0,0,0,0]}}".
Definition unicorn_body : Json.t :=
  Json.Obj [("creature", Json.Obj (creature_fields "Unicorn"))].

Definition constructor_text : string :=
  json_text "{'creature':{'speciesName':'constructor','levelsWild':[0,0,10,0,0,0,0,0,0,0,0,0],'levelsDom':[0,0,0,0,0,0,0,0,0,0,0,0]}}".
Definition constructor_body : Json.t :=
  Json.Obj [("creature", Json.Obj (creature_fields "constructor"))].

Definition no_dom_text : string :=
  json_text "{'creature':{'speciesName':'Rex','levelsWild':[0,0,10,0,0,0,0,0,0,0,0,0]}}".
Definition no_dom_body : Json.t :=
  Json.Obj [("creature",
             Json.Obj [("speciesName", Json.Str "Rex");
                       ("levelsWild", number_array [0; 0; 10; 0; 0; 0; 0; 0; 0; 0; 0; 0]%Z)])].

Definition parse_table : list (string * Json.t) :=
  [(rex_text, rex_body); (unicorn_text, unicorn_body);
   (constructor_text, constructor_body); (no_dom_text, no_dom_body);
   ("null", Json.Null)].

#[export] Instance runtime : Runtime :=
  {| ToString := fun _ => "[object Object]";
     ToNumber := fun _ => S754_nan;
     IndexOf := fun _ _ => None;
     OwnProperties := fun _ => [] |}.

#[export] Instance platform : Platform :=
  {| JSON_parse := fun text => lookup_member parse_table text;
     btoa := fun binary => binary;
     SPRITES_get := fun key =>
       inr (if String.eqb key "Rex_ASA.png" then Some ["x"%byte]
            else if String.eqb key "Rex_ASA_m.png" then Some ["y"%byte]
            else None);
     computeStatValues := fun _ _ _ _ _ _ _ => inr (Json.Arr [], Json.Arr []);
     arkColorToSrgb := fun entry =>
       let '(r, g, b, _) := Extract.ArkColorEntry.linearRgba entry in (r, g, b);
     colorizeCreature := fun base _ _ => inr base;
     renderInfoGraphicSvg := fun _ => inr "<svg/>";
     renderInfoGraphicPng := fun _ => inr ["P"%byte];
     initRasterizer := inr tt;
     DEFAULT_CONFIG := [];
     DEFAULT_SERVER_SETTINGS := [];
     colorsJson := Extract.extractColors values;
     speciesMetaJson := Extract.extractSpeciesMeta values statMultipliers |}.

Definition post (text : string) : Request.t :=
  {| Request.pathname := "/api/infographic"; Request.method := "POST";
     Request.body := text |}.

Definition empty_world : World.t :=
  {| World.cache := ∅; World.initialized := false; World.log := [] |}.

End Samples.

(** ** Classes of steps *)
Module Trace.
Import Worker.

(** The steps that precede the stat computation. *)
Definition early_step (ev : Event) : Prop :=
  match ev with
  | CacheMatch _ | SpeciesLookup _ => True
  | _ => False
  end.

(** The steps of one run of the handler: the log of [w'] past the log of
    [w]. *)
Definition steps (w w' : World.t) : list Event :=
  drop (length (World.log w)) (World.log w').

End Trace.

(** ** Character classes *)
Module Charset.

(** The digits of [toString(16)]: [0-9a-f]. *)
Definition lower_hex (ch : ascii) : bool :=
  let n := N_of_ascii ch in
  ((48 <=? n) && (n <=? 57) || (97 <=? n) && (n <=? 102))%N.

End Charset.

(** ** The colour table of [src/color-lookup.ts] *)
Module ColorTable.
Import Worker.

Section Stored.
Context `{Platform}.

(** The value the loop of the module stores under [entry.id]
    (lines 17-26). *)
Definition stored (entry : ArkColorEntry.t) : Color.t :=
  let '(r, g, b) := arkColorToSrgb entry in
  {| Color.r := r; Color.g := g; Color.b := b; Color.a := of_Z 255 |}.

End Stored.

End ColorTable.

(** ** The sprite uploader ([scripts/upload-sprites.ts])

    File names are compared byte by byte; the patterns and suffixes of
    the script are ASCII, so this is the comparison of the script on any
    name. *)
Module Upload.

Inductive Game := ASE | ASA.

Definition game_name (g : Game) : string :=
  match g with ASE => "ASE" | ASA => "ASA" end.

Record ParsedFile := {
  species : string;
  game : Game;
  isMask : bool;
  filename : string
}.

(** [s.endsWith(suffix)] *)
Definition endsWith (s suffix : string) : bool :=
  let cs := list_ascii_of_string s in
  let suf := list_ascii_of_string suffix in
  bool_decide (drop (length cs - length suf) cs = suf).

(** [s.slice(0, -k)] *)
Definition slice_off (k : nat) (s : string) : string :=
  let cs := list_ascii_of_string s in
  string_of_list_ascii (take (length cs - k) cs).

Definition is_digit (ch : ascii) : bool :=
  let n := N_of_ascii ch in ((48 <=? n) && (n <=? 57))%N.

(** [/_sf[._]/.test(s)] *)
Fixpoint test_sf (cs : list ascii) : bool :=
  match cs with
  | [] => false
  | c0 :: rest =>
      match rest with
      | c1 :: c2 :: c3 :: _ =>
          Ascii.eqb c0 "_" && Ascii.eqb c1 "s" && Ascii.eqb c2 "f"
          && (Ascii.eqb c3 "." || Ascii.eqb c3 "_")
      | _ => false
      end
      || test_sf rest
  end.

(** [/_v\d/.test(s)] *)
Fixpoint test_version (cs : list ascii) : bool :=
  match cs with
  | [] => false
  | c0 :: rest =>
      match rest with
      | c1 :: c2 :: _ => Ascii.eqb c0 "_" && Ascii.eqb c1 "v" && is_digit c2
      | _ => false
      end
      || test_version rest
  end.

Definition skipped (filename : string) : bool :=
  test_sf (list_ascii_of_string filename)
  || test_version (list_ascii_of_string filename).

Definition parseFilename (filename : string) : option ParsedFile :=
  if negb (endsWith filename ".png") then None
  else if skipped filename then None
  else
    let name := slice_off 4 filename in
    let isMask := endsWith name "_m" in
    let name := if isMask then slice_off 2 name else name in
    let isASA := endsWith name "_ASA" in
    Some {| species := if isASA then slice_off 4 name else name;
            game := if isASA then ASA else ASE;
            isMask := isMask;
            filename := filename |}.

(** The key of an upload (lines 143 and 159). *)
Definition r2Key (game species : string) (isMask : bool) : string :=
  game +:+ "/" +:+ species +:+ (if isMask then "/mask.png" else "/base.png").

End Upload.

(** ** More sample data *)
Module MoreSamples.
Import Js Worker Samples.

(** A second upstream species of the name of [rex]. *)
Definition rex_again : Extract.RawSpecies.t :=
  {| Extract.RawSpecies.name := "Rex";
     Extract.RawSpecies.displayedStats := None;
     Extract.RawSpecies.statNames := None;
     Extract.RawSpecies.colors := None;
     Extract.RawSpecies.fullStatsRaw := None;
     Extract.RawSpecies.TamedBaseHealthMultiplier := Some half;
     Extract.RawSpecies.statImprintMult := None |}.

Definition twins : Extract.ValuesJson.t :=
  {| Extract.ValuesJson.colorDefinitions := [];
     Extract.ValuesJson.dyeDefinitions := [];
     Extract.ValuesJson.species := [rex; rex_again] |}.

(** The worker bundled with the colour table of [crowded]. *)
Definition crowded_platform : Platform :=
  {| JSON_parse := JSON_parse;
     btoa := btoa;
     SPRITES_get := SPRITES_get;
     computeStatValues := computeStatValues;
     arkColorToSrgb := arkColorToSrgb;
     colorizeCreature := colorizeCreature;
     renderInfoGraphicSvg := renderInfoGraphicSvg;
     renderInfoGraphicPng := renderInfoGraphicPng;
     initRasterizer := initRasterizer;
     DEFAULT_CONFIG := DEFAULT_CONFIG;
     DEFAULT_SERVER_SETTINGS := DEFAULT_SERVER_SETTINGS;
     colorsJson := Extract.extractColors crowded;
     speciesMetaJson := speciesMetaJson |}.

(** The body of [rex_text], sent to another path with another method. *)
Definition rex_elsewhere : Request.t :=
  {| Request.pathname := "/elsewhere"; Request.method := "PUT";
     Request.body := rex_text |}.

Definition black_dye : Extract.ArkColorEntry.t :=
  {| Extract.ArkColorEntry.id := 201;
     Extract.ArkColorEntry.name := "Black Dye";
     Extract.ArkColorEntry.linearRgba := opaque;
     Extract.ArkColorEntry.isDye := true |}.

Definition rex_mask_file : Upload.ParsedFile :=
  {| Upload.species := "Rex"; Upload.game := Upload.ASA; Upload.isMask := true;
     Upload.filename := "Rex_ASA_m.png" |}.

End MoreSamples.

(** * Proofs *)

(** ** Arithmetic of doubles *)
Section NumFacts.
Local Open Scope Z_scope.

Lemma one_is_SFone : one = SFone prec emax.
Proof. reflexivity. Qed.

Lemma one_of_Z : of_Z 1 = one.
Proof. reflexivity. Qed.

(** Appending 52 zero bits to a mantissa adds 52 to its number of digits. *)
Lemma digits2_shift52 (m : positive) :
  Z.pos (digits2_pos (4503599627370496 * m)) = Z.pos (digits2_pos m) + 52.
Proof.
  change (4503599627370496 * m)%positive
    with (Pos.iter xO m 52%positive).
  cbn [Pos.iter digits2_pos]. lia.
Qed.

(** Shifting such a mantissa right by 52 places is exact. *)
Lemma shr_shift52 (m : positive) :
  SpecFloat.iter_pos shr_1 52
    {| shr_m := Z.pos (4503599627370496 * m); shr_r := false; shr_s := false |}
  = {| shr_m := Z.pos m; shr_r := false; shr_s := false |}.
Proof.
  change (4503599627370496 * m)%positive
    with (Pos.iter xO m 52%positive).
  reflexivity.
Qed.

(** Multiplying a double by 1 returns the very same double: the product is
    exactly representable, so rounding leaves it alone. *)
Lemma mul_one_r (x : number) : is_double x = true -> mul x one = x.
Proof.
  destruct x as [s | s | | s m e]; intros Hv; cbn in Hv |- *.
  - now rewrite xorb_false_r.
  - now rewrite xorb_false_r.
  - reflexivity.
  - unfold bounded, canonical_mantissa in Hv.
    apply andb_true_iff in Hv as [Hc He].
    apply Z.eqb_eq in Hc. apply Z.leb_le in He.
    unfold mul, SFmul, one. rewrite xorb_false_r, Pos.mul_comm.
    unfold binary_round_aux, shr_fexp at 1, Zdigits2.
    rewrite digits2_shift52.
    replace (Z.pos (digits2_pos m) + 52 + (e + -52))
      with (Z.pos (digits2_pos m) + e) by lia.
    rewrite Hc.
    replace (e - (e + -52)) with 52 by lia.
    unfold shr, shr_record_of_loc. rewrite shr_shift52.
    cbn [shr_m loc_of_shr_record round_nearest_even].
    unfold shr_fexp, Zdigits2.
    replace (e + -52 + 52) with e by lia.
    rewrite Hc, Z.sub_diag. cbn [shr shr_record_of_loc shr_m].
    apply Z.leb_le in He. unfold prec, emax in *. now rewrite He.
Qed.

End NumFacts.

(** ** The extraction pipeline *)
Section ExtractFacts.
Import Extract.

Lemma guarded_factor_mul (x m : number) :
  is_double x = true ->
  mul x (if gt x zero then m else one) = if gt x zero then mul x m else x.
Proof.
  intros Hx. destruct (gt x zero); [reflexivity | now apply mul_one_r].
Qed.

(** C1: [applyStatMultiplier] keeps index 0, scales index 1 by [mult[3]] and
    index 2 by [mult[2]], and scales index 3 by [mult[0]] and index 4 by
    [mult[1]] exactly when the original value is strictly positive; a value
    that is not strictly positive (zero of either sign, negative, NaN) comes
    back unchanged. *)
Theorem applyStatMultiplier_spec
    (base incWild incDom addTamed multAff m0 m1 m2 m3 : number) :
  is_double addTamed = true ->
  is_double multAff = true ->
  let out :=
    applyStatMultiplier (base, incWild, incDom, addTamed, multAff)
                        (m0, m1, m2, m3) in
  stat_at 0 out = Some base /\
  stat_at 1 out = Some (mul incWild m3) /\
  stat_at 2 out = Some (mul incDom m2) /\
  stat_at 3 out = Some (if gt addTamed zero then mul addTamed m0 else addTamed) /\
  stat_at 4 out = Some (if gt multAff zero then mul multAff m1 else multAff).
Proof.
  intros Ha Hf out. subst out. unfold applyStatMultiplier, stat_at.
  cbn [lookup list_lookup].
  rewrite (guarded_factor_mul addTamed m0 Ha), (guarded_factor_mul multAff m1 Hf).
  repeat split; reflexivity.
Qed.

(** C10: the identity multiplier [[1,1,1,1]] leaves every stat tuple of
    doubles unchanged. *)
Theorem applyStatMultiplier_identity
    (base incWild incDom addTamed multAff : number) :
  is_double incWild = true ->
  is_double incDom = true ->
  is_double addTamed = true ->
  is_double multAff = true ->
  applyStatMultiplier (base, incWild, incDom, addTamed, multAff)
                      DEFAULT_STAT_MULT
  = (base, incWild, incDom, addTamed, multAff).
Proof.
  intros Hw Hd Ha Hf. unfold applyStatMultiplier, DEFAULT_STAT_MULT.
  rewrite (guarded_factor_mul addTamed one Ha), (guarded_factor_mul multAff one Hf).
  rewrite !mul_one_r by assumption.
  now destruct (gt addTamed zero), (gt multAff zero).
Qed.

Lemma for_push_lookup {A : Type} (n : nat) (f : nat -> A) (i : nat) :
  (i < n)%nat -> for_push n f !! i = Some (f i).
Proof.
  intros Hi. unfold for_push.
  rewrite list_lookup_fmap, lookup_seq_lt by assumption. reflexivity.
Qed.

(** With the multiplier document missing, or the preset missing from it,
    every stat tuple of doubles is extracted as it stands upstream. *)
Lemma fallback_keeps_stat_tuples (sp : RawSpecies.t) (preset : string)
    (smJson : option ServerMultipliersJson.t)
    (stats : list (option (list number))) (i : nat)
    (r0 r1 r2 r3 r4 : number) (rest : list number) :
  (smJson = None \/
   exists sm, smJson = Some sm /\
              ServerMultipliersJson.serverMultiplierDictionary sm !! preset = None) ->
  (i < 12)%nat ->
  RawSpecies.fullStatsRaw sp = Some stats ->
  stats !! i = Some (Some (r0 :: r1 :: r2 :: r3 :: r4 :: rest)) ->
  is_double r1 = true -> is_double r2 = true ->
  is_double r3 = true -> is_double r4 = true ->
  SpeciesMetaEntry.fullStatsRaw
    (speciesEntry sp (loadStatMultipliers smJson preset)) !! i
  = Some (Some (r0, r1, r2, r3, r4)).
Proof.
  intros Hmissing Hi Hstats Hslot H1 H2 H3 H4.
  assert (Hload : loadStatMultipliers smJson preset = replicate 12 None).
  { destruct Hmissing as [-> | (sm & -> & Hpreset)]; [reflexivity |].
    unfold loadStatMultipliers. now rewrite Hpreset. }
  rewrite Hload. unfold speciesEntry. cbn [SpeciesMetaEntry.fullStatsRaw].
  rewrite for_push_lookup, Hstats by assumption. cbn [fmap option_fmap option_map mjoin option_join].
  rewrite Hslot. cbn [mjoin option_join].
  rewrite lookup_replicate_2 by assumption. cbn [mjoin option_join default].
  unfold applyStatMultiplier, DEFAULT_STAT_MULT.
  rewrite (guarded_factor_mul r3 one H3), (guarded_factor_mul r4 one H4).
  rewrite !mul_one_r by assumption.
  now destruct (gt r3 zero), (gt r4 zero).
Qed.

(** Within one entry the used-stat flags are read off the stat array. *)
Lemma speciesEntry_usedStats sp mults (i : nat) :
  (i < 12)%nat ->
  exists r,
    SpeciesMetaEntry.fullStatsRaw (speciesEntry sp mults) !! i = Some r /\
    SpeciesMetaEntry.usedStats (speciesEntry sp mults) !! i = Some (non_null r).
Proof.
  intros Hi. unfold speciesEntry.
  cbn [SpeciesMetaEntry.fullStatsRaw SpeciesMetaEntry.usedStats].
  set (stats := for_push 12 _).
  assert (Hs : exists r, stats !! i = Some r).
  { subst stats. rewrite for_push_lookup by assumption. eauto. }
  destruct Hs as [r Hr]. exists r. split; [assumption |].
  rewrite for_push_lookup by assumption. now rewrite Hr.
Qed.

(** Every entry of the table was built by [speciesEntry] from a species of
    the input. *)
Lemma extractSpeciesMeta_entries values mults name e :
  extractSpeciesMeta values mults !! name = Some e ->
  exists sp, sp ∈ ValuesJson.species values /\ e = speciesEntry sp mults.
Proof.
  unfold extractSpeciesMeta.
  assert (Hgen : forall l (meta : gmap string SpeciesMetaEntry.t),
    foldl (fun meta sp => assign meta (RawSpecies.name sp) (speciesEntry sp mults))
          meta l !! name = Some e ->
    meta !! name = Some e \/
    exists sp, sp ∈ l /\ e = speciesEntry sp mults).
  { induction l as [| sp l IH]; intros meta Hl; cbn in Hl; [now left |].
    apply IH in Hl as [Hl | [sp' [Hin ->]]].
    - unfold assign in Hl. case_decide; [now left |].
      destruct (decide (RawSpecies.name sp = name)) as [Heq | Hne].
      + rewrite Heq, lookup_insert_eq in Hl. injection Hl as <-.
        right. exists sp. split; [left | reflexivity].
      + rewrite lookup_insert_ne in Hl by assumption. now left.
    - right. exists sp'. split; [now right | reflexivity]. }
  intros Hl. apply Hgen in Hl as [Hl | Hl]; [| assumption].
  now rewrite lookup_empty in Hl.
Qed.

(** C2: in every entry of the extracted species table, and for every stat
    slot [i] in 0..11, [usedStats[i]] is true exactly when
    [fullStatsRaw[i]] is not null. *)
Theorem usedStats_derived values mults name e (i : nat) :
  extractSpeciesMeta values mults !! name = Some e ->
  (i < 12)%nat ->
  exists (u : bool) (r : option StatTuple),
    SpeciesMetaEntry.usedStats e !! i = Some u /\
    SpeciesMetaEntry.fullStatsRaw e !! i = Some r /\
    (u = true <-> r <> None).
Proof.
  intros He Hi.
  apply extractSpeciesMeta_entries in He as [sp [_ ->]].
  destruct (speciesEntry_usedStats sp mults i Hi) as [r [Hr Hu]].
  exists (non_null r), r. repeat split; try assumption.
  - now destruct r.
  - destruct r; [reflexivity | congruence].
Qed.

Lemma imap_ids {A B : Type} (f : nat -> A -> B) (g : B -> Z) (k : nat) (l : list A) :
  (forall i x, g (f i x) = Z.of_nat (k + i)) ->
  g <$> imap f l = Z.of_nat <$> seq k (length l).
Proof.
  revert f k. induction l as [| x l IH]; intros f k Hg; [reflexivity |].
  cbn. rewrite Hg, Nat.add_0_r. f_equal.
  apply IH. intros i y. unfold compose. rewrite Hg. f_equal. lia.
Qed.

(** The ids of the colour table, in output order. *)
Lemma extractColors_ids values :
  ArkColorEntry.id <$> extractColors values
  = (Z.of_nat <$> seq 1 (length (ValuesJson.colorDefinitions values)))
    ++ (Z.of_nat <$> seq 201 (length (ValuesJson.dyeDefinitions values))).
Proof.
  unfold extractColors. rewrite fmap_app. f_equal.
  - apply imap_ids. intros i [name rgba]. cbn. lia.
  - apply imap_ids. intros i [name rgba]. cbn. lia.
Qed.

Lemma extractColors_base values (i : nat) name rgba :
  ValuesJson.colorDefinitions values !! i = Some (name, rgba) ->
  extractColors values !! i
  = Some {| ArkColorEntry.id := Z.of_nat i + 1; ArkColorEntry.name := name;
            ArkColorEntry.linearRgba := rgba; ArkColorEntry.isDye := false |}.
Proof.
  intros Hi. unfold extractColors.
  rewrite lookup_app_l by (rewrite length_imap; eapply lookup_lt_Some; eassumption).
  rewrite list_lookup_imap, Hi. reflexivity.
Qed.

Lemma extractColors_dye values (j : nat) name rgba :
  ValuesJson.dyeDefinitions values !! j = Some (name, rgba) ->
  extractColors values !! (length (ValuesJson.colorDefinitions values) + j)%nat
  = Some {| ArkColorEntry.id := 201 + Z.of_nat j; ArkColorEntry.name := name;
            ArkColorEntry.linearRgba := rgba; ArkColorEntry.isDye := true |}.
Proof.
  intros Hj. unfold extractColors.
  rewrite lookup_app_r by (rewrite length_imap; lia).
  rewrite length_imap.
  replace (_ + j - _)%nat with j by lia.
  rewrite list_lookup_imap, Hj. reflexivity.
Qed.

(** C3, as the code has it: base colours take the dense ids [1..N] and dyes
    the dense ids [201..200+M], both in input order; the table depends on
    the two definition arrays only, so extracting again from the same
    arrays gives the same table; and no two entries share an id as long as
    there are at most 200 base colours. *)
Theorem extractColors_ids_dense values :
  let N := length (ValuesJson.colorDefinitions values) in
  let M := length (ValuesJson.dyeDefinitions values) in
  (forall (i : nat) name rgba,
      ValuesJson.colorDefinitions values !! i = Some (name, rgba) ->
      exists c, extractColors values !! i = Some c /\
                ArkColorEntry.id c = Z.of_nat i + 1 /\
                1 <= ArkColorEntry.id c <= Z.of_nat N /\
                ArkColorEntry.name c = name /\ ArkColorEntry.isDye c = false)%Z /\
  (forall (j : nat) name rgba,
      ValuesJson.dyeDefinitions values !! j = Some (name, rgba) ->
      exists c, extractColors values !! (N + j)%nat = Some c /\
                ArkColorEntry.id c = 201 + Z.of_nat j /\
                201 <= ArkColorEntry.id c <= 200 + Z.of_nat M /\
                ArkColorEntry.name c = name /\ ArkColorEntry.isDye c = true)%Z /\
  length (extractColors values) = (N + M)%nat /\
  (forall values',
      ValuesJson.colorDefinitions values' = ValuesJson.colorDefinitions values ->
      ValuesJson.dyeDefinitions values' = ValuesJson.dyeDefinitions values ->
      extractColors values' = extractColors values) /\
  ((N <= 200)%nat -> NoDup (ArkColorEntry.id <$> extractColors values)).
Proof.
  intros N M. split; [| split; [| split; [| split]]].
  - intros i name rgba Hi. eexists.
    split; [eapply extractColors_base; eassumption |].
    apply lookup_lt_Some in Hi. cbn. subst N. repeat split; lia.
  - intros j name rgba Hj. eexists.
    split; [eapply extractColors_dye; eassumption |].
    apply lookup_lt_Some in Hj. cbn. subst M. repeat split; lia.
  - unfold extractColors. now rewrite length_app, !length_imap.
  - intros values' Hc Hd. unfold extractColors. now rewrite Hc, Hd.
  - intros HN. rewrite extractColors_ids. fold N M.
    apply NoDup_app. repeat split.
    + apply NoDup_fmap_2; [apply Nat2Z.inj' | apply NoDup_seq].
    + intros z Hz1 Hz2.
      apply list_elem_of_fmap in Hz1 as [a [-> Ha]].
      apply list_elem_of_fmap in Hz2 as [b [Hab Hb]].
      apply elem_of_seq in Ha. apply elem_of_seq in Hb. lia.
    + apply NoDup_fmap_2; [apply Nat2Z.inj' | apply NoDup_seq].
Qed.

End ExtractFacts.

(** ** The cache key *)
Section CacheKeyFacts.
Import Worker.

Lemma string_length_app (s1 s2 : string) :
  String.length (s1 +:+ s2) = (String.length s1 + String.length s2)%nat.
Proof. induction s1 as [| ch s1 IH]; simpl; [reflexivity | now f_equal]. Qed.

Lemma string_length_concat (l : list string) (n : nat) :
  Forall (fun s => String.length s = n) l ->
  String.length (String.concat "" l) = (n * length l)%nat.
Proof.
  induction 1 as [| s l Hs Hl IH]; [cbn; lia |].
  destruct l as [| s' l'].
  - cbn. lia.
  - change (String.concat "" (s :: s' :: l'))
      with (s +:+ "" +:+ String.concat "" (s' :: l')).
    rewrite !string_length_app, IH, Hs. cbn [String.length length]. lia.
Qed.

(** A byte prints as exactly two hexadecimal digits once padded. *)
Lemma byte_hex_length (b : byte) :
  String.length (padStart 2 "0" (toString16 (Byte.to_N b))) = 2%nat.
Proof. destruct b; reflexivity. Qed.

(** SHA-256 always returns 32 bytes. *)
Lemma digest_length (data : list byte) : length (SHA256.digest data) = 32%nat.
Proof.
  unfold SHA256.digest.
  match goal with |- context [SHA256.output ?s] => generalize s end.
  intros [[[[[[[a b] c] d] e] f] g] h]. reflexivity.
Qed.

(** C7: requests with the same raw body text get the same cache key,
    whatever else differs between them, and every key is the fixed prefix
    followed by a digest of exactly 64 characters. *)
Theorem buildCacheKey_deterministic (r1 r2 : Request.t) :
  Request.body r1 = Request.body r2 ->
  buildCacheKey r1 = buildCacheKey r2 /\
  exists digest : string,
    buildCacheKey r1 = CACHE_PREFIX +:+ digest /\ String.length digest = 64%nat.
Proof.
  intros Hbody. unfold buildCacheKey. rewrite Hbody. split; [reflexivity |].
  eexists. split; [reflexivity |].
  rewrite (string_length_concat _ 2).
  - now rewrite length_fmap, digest_length.
  - apply Forall_fmap, Forall_forall. intros b _. apply byte_hex_length.
Qed.

End CacheKeyFacts.

(** ** The router *)
Section RouterFacts.
Import Js Worker.
Context `{Runtime} `{Platform}.

(** C9, as the code has it: a request to [/api/health] is answered 200 with
    the plain text [OK] whatever its method, and a request to any other
    path that is neither [POST /api/infographic] nor [GET /api/species] is
    answered 404. *)
Theorem fetch_routes (request : Request.t) (w : World.t) :
  (Request.pathname request = "/api/health" ->
   fetch request w = (Ok (Response_text "OK" 200), w)) /\
  (Request.pathname request <> "/api/health" ->
   ~ (Request.pathname request = "/api/infographic" /\ Request.method request = "POST") ->
   ~ (Request.pathname request = "/api/species" /\ Request.method request = "GET") ->
   fetch request w = (Ok (Response_text "Not Found" 404), w)).
Proof.
  unfold fetch. split.
  - intros ->. reflexivity.
  - intros Hh Hi Hs.
    destruct (String.eqb_spec (Request.pathname request) "/api/infographic") as [Hp | Hp];
      destruct (String.eqb_spec (Request.method request) "POST") as [Hm | Hm];
      try (exfalso; apply Hi; now split); cbn [andb];
      destruct (String.eqb_spec (Request.pathname request) "/api/species") as [Hp' | Hp'];
      destruct (String.eqb_spec (Request.method request) "GET") as [Hm' | Hm'];
      try (exfalso; apply Hs; now split); cbn [andb];
      destruct (String.eqb_spec (Request.pathname request) "/api/health");
      try contradiction; reflexivity.
Qed.

End RouterFacts.

Section RouterExamples.
Import Js Worker Samples.

(** C9 as stated fails: a [POST] to [/api/health] is answered 200, not
    404. *)
Lemma post_health_is_200 :
  let request := {| Request.pathname := "/api/health";
                    Request.method := "POST";
                    Request.body := "" |} in
  exists r,
    (fetch request empty_world).1 = Ok r /\
    Response.status r = 200%Z /\
    Response.status r <> 404%Z.
Proof. eexists. split; [reflexivity |]. split; [reflexivity | discriminate]. Qed.

Lemma fetch_routes_witness :
  fetch {| Request.pathname := "/api/health";
           Request.method := "DELETE";
           Request.body := "" |} empty_world
  = (Ok (Response_text "OK" 200), empty_world) /\
  fetch {| Request.pathname := "/api/infographic";
           Request.method := "GET";
           Request.body := "" |} empty_world
  = (Ok (Response_text "Not Found" 404), empty_world).
Proof.
  split.
  - apply (fetch_routes {| Request.pathname := "/api/health";
                           Request.method := "DELETE";
                           Request.body := "" |}). reflexivity.
  - apply (fetch_routes {| Request.pathname := "/api/infographic";
                           Request.method := "GET";
                           Request.body := "" |}).
    + discriminate.
    + intros [_ Hm]. discriminate Hm.
    + intros [Hp _]. discriminate Hp.
Defined.

End RouterExamples.

(** ** The theorems at the sample data *)
Section ExtractExamples.
Import Extract Samples.

Lemma applyStatMultiplier_spec_witness :
  is_double half = true /\ is_double (of_Z (-3)) = true /\
  stat_at 3 (applyStatMultiplier (of_Z 1100, half, half, half, of_Z (-3))
                                 (of_Z 2, of_Z 3, of_Z 4, of_Z 5))
  = Some one /\
  stat_at 4 (applyStatMultiplier (of_Z 1100, half, half, half, of_Z (-3))
                                 (of_Z 2, of_Z 3, of_Z 4, of_Z 5))
  = Some (of_Z (-3)).
Proof.
  split; [reflexivity |]. split; [reflexivity |].
  destruct (applyStatMultiplier_spec (of_Z 1100) half half half (of_Z (-3))
              (of_Z 2) (of_Z 3) (of_Z 4) (of_Z 5) eq_refl eq_refl)
    as (_ & _ & _ & H3 & H4).
  split; [exact H3 | exact H4].
Defined.

Lemma applyStatMultiplier_identity_witness :
  is_double half = true /\ is_double (of_Z (-3)) = true /\
  applyStatMultiplier (of_Z 1100, half, half, half, of_Z (-3)) DEFAULT_STAT_MULT
  = (of_Z 1100, half, half, half, of_Z (-3)).
Proof.
  split; [reflexivity |]. split; [reflexivity |].
  exact (applyStatMultiplier_identity (of_Z 1100) half half half (of_Z (-3))
           eq_refl eq_refl eq_refl eq_refl).
Defined.

Lemma usedStats_derived_witness :
  extractSpeciesMeta values statMultipliers !! "Rex"
  = Some (speciesEntry rex statMultipliers) /\
  exists (u : bool) (r : option StatTuple),
    SpeciesMetaEntry.usedStats (speciesEntry rex statMultipliers) !! 1%nat = Some u /\
    SpeciesMetaEntry.fullStatsRaw (speciesEntry rex statMultipliers) !! 1%nat = Some r /\
    (u = true <-> r <> None).
Proof.
  assert (Hrex : extractSpeciesMeta values statMultipliers !! "Rex"
                 = Some (speciesEntry rex statMultipliers))
    by (vm_compute; reflexivity).
  split; [exact Hrex |].
  apply (usedStats_derived values statMultipliers "Rex" _ 1 Hrex). lia.
Defined.

Lemma extractColors_ids_dense_witness :
  (length (ValuesJson.colorDefinitions values) <= 200)%nat /\
  NoDup (ArkColorEntry.id <$> extractColors values).
Proof.
  split; [cbn; lia |].
  apply (extractColors_ids_dense values). cbn. lia.
Defined.

(** C3 as stated fails: with 201 base colours the last base colour and the
    first dye both get the id 201. *)
Lemma extractColors_ids_collide :
  ~ NoDup (ArkColorEntry.id <$> extractColors crowded).
Proof.
  intros Hnd.
  assert (H200 : (ArkColorEntry.id <$> extractColors crowded) !! 200%nat = Some 201%Z)
    by (vm_compute; reflexivity).
  assert (H201 : (ArkColorEntry.id <$> extractColors crowded) !! 201%nat = Some 201%Z)
    by (vm_compute; reflexivity).
  pose proof (proj1 (NoDup_alt _) Hnd _ _ _ H200 H201). discriminate.
Qed.

End ExtractExamples.

Section CacheKeyExamples.
Import Worker Samples.

Lemma buildCacheKey_deterministic_witness :
  let r1 := post "abc" in
  let r2 := {| Request.pathname := "/api/species"; Request.method := "PUT";
               Request.body := "abc" |} in
  Request.body r1 = Request.body r2 /\
  buildCacheKey r1 = buildCacheKey r2 /\
  exists digest : string,
    buildCacheKey r1 = CACHE_PREFIX +:+ digest /\ String.length digest = 64%nat.
Proof.
  intros r1 r2. split; [reflexivity |].
  exact (buildCacheKey_deterministic r1 r2 eq_refl).
Defined.

(** The digest of ["abc"] is the one of FIPS 180-4, appendix B.1. *)
Example buildCacheKey_abc :
  buildCacheKey (post "abc")
  = "https://cache.internal/infographic:ba7816bf8f01cfea414140de5dae2223b00361a396177a9cb410ff61f20015ad".
Proof. vm_compute. reflexivity. Qed.

End CacheKeyExamples.

(** Membership in an explicit list of steps. *)
Ltac events := repeat first [apply list_elem_of_here | apply list_elem_of_further].
Ltac events_in Hin :=
  repeat (apply elem_of_cons in Hin as [Hin | Hin];
          [first [discriminate Hin | now injection Hin] |]);
  now apply elem_of_nil in Hin.

(** ** The request handler *)
Section HandlerFacts.
Import Js Worker.
Context `{Runtime} `{Platform}.

#[local] Arguments record : simpl never.

Lemma record_record (evs1 evs2 : list Event) (w : World.t) :
  record evs2 (record evs1 w) = record (evs1 ++ evs2) w.
Proof. unfold record. cbn. now rewrite app_assoc. Qed.

Lemma bind_ok {A B : Type} (m : M A) (k : A -> M B) (w w' : World.t) (a : A) :
  m w = (Ok a, w') -> (m ≫= k) w = k a w'.
Proof. intros Hm. unfold mbind, M_bind. now rewrite Hm. Qed.

Lemma emit_run (ev : Event) (w : World.t) : emit ev w = (Ok tt, record [ev] w).
Proof. reflexivity. Qed.

Lemma cache_match_run (key : string) (w : World.t) :
  cache_match key w = (Ok (World.cache w !! key), record [CacheMatch key] w).
Proof. reflexivity. Qed.

Ltac run :=
  repeat (cbn -[buildCacheKey handleValidated renderAndCache acquireImage
                 getSpeciesInfo buildCreature resolveRegionColors
                 uint8ArrayToBase64 SHA256.digest
                 optional_member member truthy isArray coalesce items];
          unfold mbind, M_bind, mret, M_ret, emit, modify, lift, throw,
                 get_world, try_catch, cache_match, cache_put).

(** The sprite stage never fails the request: whatever the bucket and the
    colorizer do, it returns, leaves the cache alone and records sprite
    steps only. *)
Lemma acquireImage_total (speciesName game : Json.t) (species : SpeciesValue)
    (colors : Json.t) (w : World.t) :
  exists (image : option string) (evs : list Event),
    acquireImage speciesName game species colors w = (Ok image, record evs w) /\
    Forall sprite_step evs /\
    (forall regionColors,
        Colorize regionColors ∈ evs ->
        resolveRegionColors species colors = inr regionColors).
Proof.
  unfold acquireImage. run.
  destruct (SPRITES_get _) as [e1 | [baseBytes |]]; run;
    [| destruct (SPRITES_get _) as [e2 | [maskBytes |]]; run;
       [| destruct (resolveRegionColors species colors)
            as [e3 | regionColors] eqn:Hregions; run;
          [| destruct (colorizeCreature _ _ _) as [e4 | imageBytes]; run] |]
     | destruct (SPRITES_get _) as [e2 | maskObj]; run];
    rewrite ?record_record; eexists _, _;
    (split; [reflexivity |]); (split; [repeat constructor |]);
    intros rc Hin;
    repeat (apply elem_of_cons in Hin as [Hin | Hin];
            [first [discriminate Hin | injection Hin as ->; reflexivity] |]);
    now apply elem_of_nil in Hin.
Qed.

(** Rendering: the renderer is called with the prepared arguments and with
    nothing else; a response is a 200 and is stored under the key; a
    failure stores nothing. *)
Lemma renderAndCache_cases (key : string) (body : Json.t) (call : RenderCall.t)
    (w : World.t) :
  exists res w' evs,
    renderAndCache key body call w = (res, w') /\
    World.log w' = World.log w ++ evs /\
    (forall fmt c, Render fmt c ∈ evs -> c = call) /\
    (initRasterizer = inr tt -> exists fmt, Render fmt call ∈ evs) /\
    match res with
    | Ok r =>
        Response.status r = 200%Z /\
        World.cache w' = <[key := r]> (World.cache w) /\
        CachePut key ∈ evs
    | Throw _ =>
        World.cache w' = World.cache w /\ CachePut key ∉ evs
    end.
Proof.
  unfold renderAndCache, ensureInitialized.
  destruct (strict_eq_string _ "png"); run;
    [destruct (World.initialized w) eqn:Hinit; run;
       [| destruct initRasterizer as [e | []]; run];
       [destruct (renderInfoGraphicPng call) as [e | png]; run
       | | destruct (renderInfoGraphicPng call) as [e | png]; run]
    | destruct (renderInfoGraphicSvg call) as [e | svg]; run];
    eexists _, _, _; (split; [reflexivity |]); unfold record; cbn;
    rewrite <- ?app_assoc; (split; [reflexivity |]);
    (split; [intros fmt c Hin; events_in Hin |]);
    (split; [intros Hup; first [discriminate Hup | eexists; events] |]);
    repeat split; first [intros Hin; cbn in Hin; events_in Hin | events].
Qed.

Lemma get_member (o : Json.t) (key : string) (v : Json.t) :
  get o key = Some v ->
  member (Some o) key = inr (Some v) /\ optional_member (Some o) key = Some v.
Proof. destruct o; cbn; intros Hv; try discriminate Hv; now rewrite Hv. Qed.

Lemma member_not_null (o : Json.t) (key : string) :
  o <> Json.Null ->
  member (Some o) key = inr (get o key) /\ optional_member (Some o) key = get o key.
Proof. destruct o; cbn; intros Ho; try contradiction; now split. Qed.

Lemma coalesce_Some_Null (v : Json.t) : coalesce (Some v) Json.Null = v.
Proof. now destruct v. Qed.

(** A request that passes validation goes on to the species lookup. *)
Lemma handleInfographic_valid (request : Request.t) (w : World.t)
    (body c speciesName : Json.t) (lw ld : list Json.t) :
  World.cache w !! buildCacheKey request = None ->
  JSON_parse (Request.body request) = Some body ->
  get body "creature" = Some c ->
  get c "speciesName" = Some speciesName ->
  truthy (Some speciesName) = true ->
  get c "levelsWild" = Some (Json.Arr lw) -> length lw = 12%nat ->
  get c "levelsDom" = Some (Json.Arr ld) -> length ld = 12%nat ->
  handleInfographic request w
  = handleValidated (buildCacheKey request) body c speciesName
      (Json.Arr lw) (Json.Arr ld)
      (record [CacheMatch (buildCacheKey request)] w).
Proof.
  intros Hmiss Hparse Hc Hsn Htruthy Hlw Hnlw Hld Hnld.
  unfold handleInfographic.
  rewrite (bind_ok _ _ _ _ _ (cache_match_run _ _)), Hmiss, Hparse.
  destruct (get_member _ _ _ Hc) as [-> _]. run.
  destruct (get_member _ _ _ Hsn) as [_ ->].
  destruct (get_member _ _ _ Hlw) as [_ ->].
  destruct (get_member _ _ _ Hld) as [_ ->].
  rewrite !coalesce_Some_Null, Htruthy.
  cbn -[handleValidated buildCacheKey]. rewrite Hnlw, Hnld. reflexivity.
Qed.

Lemma isArray_twelve (v : option Json.t) :
  isArray v = true ->
  (length (items (coalesce v Json.Null)) =? 12)%nat = true ->
  twelve v.
Proof.
  destruct v as [[| | | | l |] |]; cbn; try discriminate.
  intros _ Hlen%Nat.eqb_eq. now exists l.
Qed.

(** Validation on a parsed body other than [null]: a missing species name
    or a level array that is not an array of twelve entries is answered
    with one of the two 400 messages, after the cache probe and nothing
    else. *)
Lemma handleInfographic_rejects (request : Request.t) (w : World.t) (body : Json.t) :
  World.cache w !! buildCacheKey request = None ->
  JSON_parse (Request.body request) = Some body ->
  body <> Json.Null ->
  truthy (optional_member (get body "creature") "speciesName") = false \/
  ~ twelve (optional_member (get body "creature") "levelsWild") \/
  ~ twelve (optional_member (get body "creature") "levelsDom") ->
  exists message,
    handleInfographic request w
    = (Ok (error_response message),
       record [CacheMatch (buildCacheKey request)] w) /\
    (message = MISSING_FIELDS \/ message = BAD_LEVELS).
Proof.
  intros Hmiss Hparse Hbody Hbad.
  unfold handleInfographic.
  rewrite (bind_ok _ _ _ _ _ (cache_match_run _ _)), Hmiss, Hparse.
  destruct (member_not_null body "creature" Hbody) as [-> _]. run.
  set (speciesName := optional_member _ "speciesName") in *.
  set (levelsWild := optional_member _ "levelsWild") in *.
  set (levelsDom := optional_member _ "levelsDom") in *.
  destruct (truthy speciesName); destruct (truthy levelsWild);
    destruct (truthy levelsDom); cbn [negb orb];
    try (eexists; split; [reflexivity | now left]).
  destruct (isArray levelsWild) eqn:Haw;
    destruct (length (items (coalesce levelsWild Json.Null)) =? 12)%nat eqn:Hnw;
    destruct (isArray levelsDom) eqn:Had;
    destruct (length (items (coalesce levelsDom Json.Null)) =? 12)%nat eqn:Hnd;
    cbn [negb orb];
    try (eexists; split; [reflexivity | now right]).
  exfalso. destruct Hbad as [Hbad | [Hbad | Hbad]];
    [discriminate Hbad | apply Hbad | apply Hbad]; now apply isArray_twelve.
Qed.

(** C5, at the body [null]: the handler reads [body.creature] off [null]
    and throws a [TypeError] instead of answering 400. *)
Theorem null_body_throws (request : Request.t) (w : World.t) :
  World.cache w !! buildCacheKey request = None ->
  JSON_parse (Request.body request) = Some Json.Null ->
  exists what,
    handleInfographic request w
    = (Throw (TypeError what), record [CacheMatch (buildCacheKey request)] w).
Proof.
  intros Hmiss Hparse. unfold handleInfographic.
  rewrite (bind_ok _ _ _ _ _ (cache_match_run _ _)), Hmiss, Hparse.
  eexists. reflexivity.
Qed.

(** A validated request for a name that is neither in the species table
    nor a property of [Object.prototype] is answered 400 with the name in
    the message; the cache is as it was. *)
Lemma unknown_species_rejected (request : Request.t) (w : World.t)
    (body c : Json.t) (name : string) (lw ld : list Json.t) :
  World.cache w !! buildCacheKey request = None ->
  JSON_parse (Request.body request) = Some body ->
  get body "creature" = Some c ->
  get c "speciesName" = Some (Json.Str name) -> name <> "" ->
  get c "levelsWild" = Some (Json.Arr lw) -> length lw = 12%nat ->
  get c "levelsDom" = Some (Json.Arr ld) -> length ld = 12%nat ->
  speciesMetaJson !! name = None ->
  name ∉ Object_prototype_keys ->
  handleInfographic request w
  = (Ok (error_response ("Unknown species: " +:+ name)),
     record [CacheMatch (buildCacheKey request); SpeciesLookup name] w).
Proof.
  intros Hmiss Hparse Hc Hsn Hname Hlw Hnlw Hld Hnld Htable Hproto.
  rewrite (handleInfographic_valid _ _ _ _ _ _ _ Hmiss Hparse Hc Hsn)
    by (try eassumption; cbn; now destruct (String.eqb_spec name "")).
  unfold handleValidated.
  rewrite (bind_ok _ _ _ _ _ (emit_run _ _)). cbn [to_string].
  unfold getSpeciesInfo. rewrite Htable, bool_decide_eq_false_2 by assumption.
  cbn. now rewrite record_record.
Qed.

(** What a validated request does once the lookup has returned a value. *)
Lemma handleValidated_found (key : string) (body c speciesName : Json.t)
    (levelsWild levelsDom : Json.t) (species : SpeciesValue) (w : World.t) :
  getSpeciesInfo (to_string speciesName) = Some species ->
  let w1 := record [SpeciesLookup (to_string speciesName); ComputeStats species] w in
  (exists e, statValues c species levelsWild levelsDom = inl e /\
             handleValidated key body c speciesName levelsWild levelsDom w
             = (Throw e, w1)) \/
  (exists values image evs,
     statValues c species levelsWild levelsDom = inr values /\
     Forall sprite_step evs /\
     handleValidated key body c speciesName levelsWild levelsDom w
     = renderAndCache key body
         {| RenderCall.creature :=
              buildCreature c speciesName levelsWild levelsDom values;
            RenderCall.species := species;
            RenderCall.server := serverSettings body;
            RenderCall.config := mergeConfig body;
            RenderCall.creatureImageDataUri := image |}
         (record evs w1)).
Proof.
  intros Hfound w1. unfold handleValidated.
  rewrite (bind_ok _ _ _ _ _ (emit_run _ _)), Hfound.
  rewrite (bind_ok _ _ _ _ _ (emit_run _ _)), record_record. cbn [app]. fold w1.
  destruct (statValues c species levelsWild levelsDom) as [e | values] eqn:Hstats.
  - left. exists e. split; reflexivity.
  - right. cbn [lift].
    destruct (acquireImage_total speciesName (game body) species
                (CreatureData.colors
                   (buildCreature c speciesName levelsWild levelsDom values)) w1)
      as (image & evs & Hacq & Hsprite & _).
    exists values, image, evs. split; [reflexivity |]. split; [assumption |].
    unfold mbind at 1, M_bind at 1, mret, M_ret.
    now rewrite (bind_ok _ _ _ _ _ Hacq).
Qed.

Lemma getSpeciesInfo_inherited (name : string) :
  name ∈ Object_prototype_keys ->
  speciesMetaJson !! name = None ->
  getSpeciesInfo name = Some (Inherited name).
Proof.
  intros Hproto Htable. unfold getSpeciesInfo.
  now rewrite Htable, bool_decide_eq_true_2.
Qed.

(** C6, at a name inherited from [Object.prototype]: the name is not in the
    species table, yet the lookup returns the inherited member, the guard
    does not fire, the stat computation is called on that member, and no
    response of the handler is a 400. *)
Theorem inherited_name_not_rejected (request : Request.t) (w : World.t)
    (body c : Json.t) (name : string) (lw ld : list Json.t) :
  World.cache w !! buildCacheKey request = None ->
  JSON_parse (Request.body request) = Some body ->
  get body "creature" = Some c ->
  get c "speciesName" = Some (Json.Str name) -> name <> "" ->
  get c "levelsWild" = Some (Json.Arr lw) -> length lw = 12%nat ->
  get c "levelsDom" = Some (Json.Arr ld) -> length ld = 12%nat ->
  name ∈ Object_prototype_keys ->
  speciesMetaJson !! name = None ->
  ComputeStats (Inherited name) ∈ World.log (handleInfographic request w).2 /\
  forall r, (handleInfographic request w).1 = Ok r ->
            Response.status r = 200%Z /\
            r <> error_response ("Unknown species: " +:+ name).
Proof.
  intros Hmiss Hparse Hc Hsn Hname Hlw Hnlw Hld Hnld Hproto Htable.
  rewrite (handleInfographic_valid _ _ _ _ _ _ _ Hmiss Hparse Hc Hsn)
    by (try eassumption; cbn; now destruct (String.eqb_spec name "")).
  pose proof (getSpeciesInfo_inherited name Hproto Htable) as Hfound.
  destruct (handleValidated_found (buildCacheKey request) body c (Json.Str name)
              (Json.Arr lw) (Json.Arr ld) (Inherited name)
              (record [CacheMatch (buildCacheKey request)] w) Hfound)
    as [(e & _ & ->) | (values & image & evs & _ & _ & ->)].
  - split; [| intros r Hr; discriminate Hr].
    unfold record. cbn. apply elem_of_app. right. events.
  - destruct (renderAndCache_cases (buildCacheKey request) body
                {| RenderCall.creature :=
                     buildCreature c (Json.Str name) (Json.Arr lw) (Json.Arr ld) values;
                   RenderCall.species := Inherited name;
                   RenderCall.server := serverSettings body;
                   RenderCall.config := mergeConfig body;
                   RenderCall.creatureImageDataUri := image |}
                (record evs
                   (record [SpeciesLookup (to_string (Json.Str name));
                            ComputeStats (Inherited name)]
                      (record [CacheMatch (buildCacheKey request)] w))))
      as (res & w' & evs' & -> & Hlog & _ & _ & Hres).
    cbn [fst snd]. split.
    + rewrite Hlog. unfold record. cbn.
      apply elem_of_app. left. apply elem_of_app. left.
      apply elem_of_app. right. events.
    + intros r ->. destruct Hres as (Hstatus & _). split; [assumption |].
      intros ->. discriminate Hstatus.
Qed.

Lemma sum_numbers (ld : list number) (acc : number) :
  foldl plus (Json.Num acc) (Json.Num <$> ld) = Json.Num (foldl add acc ld).
Proof.
  revert acc. induction ld as [| d ld IH]; intros acc; [reflexivity |].
  cbn. apply IH.
Qed.

(** C4: for a request that passes validation with two arrays of twelve
    numbers and whose species resolves, every creature handed to the
    renderer has [level = levelsWild[2] + 1 + sum(levelsDom)] and
    [levelHatched = levelsWild[2] + 1], whatever else the body holds; and
    the renderer is called once the stat values are computed and the
    rasterizer starts. *)
Theorem level_derived (request : Request.t) (w : World.t) (body c : Json.t)
    (name : string) (lw ld : list number) (species : SpeciesValue) :
  World.cache w !! buildCacheKey request = None ->
  JSON_parse (Request.body request) = Some body ->
  get body "creature" = Some c ->
  get c "speciesName" = Some (Json.Str name) -> name <> "" ->
  get c "levelsWild" = Some (Json.Arr (Json.Num <$> lw)) -> length lw = 12%nat ->
  get c "levelsDom" = Some (Json.Arr (Json.Num <$> ld)) -> length ld = 12%nat ->
  getSpeciesInfo name = Some species ->
  exists (t : number) (evs : list Event),
    lw !! 2%nat = Some t /\
    World.log (handleInfographic request w).2 = World.log w ++ evs /\
    (forall fmt call,
        Render fmt call ∈ evs ->
        CreatureData.level (RenderCall.creature call)
        = Json.Num (add (add t one) (foldl add zero ld)) /\
        CreatureData.levelHatched (RenderCall.creature call)
        = Json.Num (add t one)) /\
    (forall values,
        statValues c species (Json.Arr (Json.Num <$> lw)) (Json.Arr (Json.Num <$> ld))
        = inr values ->
        initRasterizer = inr tt ->
        exists fmt call, Render fmt call ∈ evs).
Proof.
  intros Hmiss Hparse Hc Hsn Hname Hlw Hnlw Hld Hnld Hfound.
  rewrite (handleInfographic_valid _ _ _ _ _ _ _ Hmiss Hparse Hc Hsn)
    by (try eassumption; rewrite ?length_fmap; try assumption;
        cbn; now destruct (String.eqb_spec name "")).
  destruct (lookup_lt_is_Some_2 lw 2) as [t Ht]; [lia |]. exists t.
  destruct (handleValidated_found (buildCacheKey request) body c (Json.Str name)
              (Json.Arr (Json.Num <$> lw)) (Json.Arr (Json.Num <$> ld)) species
              (record [CacheMatch (buildCacheKey request)] w) Hfound)
    as [(e & He & ->) | (values & image & evs & Hv & Hsprite & ->)].
  - exists [CacheMatch (buildCacheKey request); SpeciesLookup name; ComputeStats species].
    split; [assumption |]. split.
    { unfold record. cbn. now rewrite <- app_assoc. }
    split; [intros fmt call Hin; events_in Hin |].
    intros values Hv. congruence.
  - match goal with
    | |- context [renderAndCache ?k ?b ?call ?w0] =>
        destruct (renderAndCache_cases k b call w0)
          as (res & w' & evs' & -> & Hlog & Hall & Hex & _)
    end.
    exists ([CacheMatch (buildCacheKey request);
             SpeciesLookup name; ComputeStats species] ++ evs ++ evs').
    split; [assumption |]. split.
    { cbn [snd]. rewrite Hlog. unfold record. cbn. now rewrite <- !app_assoc. }
    split.
    + intros fmt call Hin.
      apply elem_of_app in Hin as [Hin | Hin]; [events_in Hin |].
      apply elem_of_app in Hin as [Hin | Hin].
      { exfalso. eapply Forall_forall in Hsprite; [| exact Hin]. exact Hsprite. }
      rewrite (Hall fmt call Hin).
      cbn [RenderCall.creature buildCreature CreatureData.level
           CreatureData.levelHatched index items].
      rewrite list_lookup_fmap, Ht, sum_numbers. split; reflexivity.
    + intros _ _ Hinit. destruct (Hex Hinit) as [fmt Hin].
      eexists fmt, _. apply elem_of_app. right. apply elem_of_app. right. exact Hin.
Qed.

End HandlerFacts.

(** ** Region colours *)
Section RegionFacts.
Import Js Worker.
Context `{Runtime} `{Platform}.

(** C8: in the loop over the six colour regions, region [i] gets the
    looked-up colour of the supplied id when the species has the region
    enabled and the id is neither absent nor zero; a region that is not
    enabled gets no colour whatever id is supplied, and so does a region
    whose id is absent, [null] or zero. *)
Theorem regionColors_resolved (e : SpeciesMetaEntry.t) (colors : Json.t) (i : nat) :
  (i < 6)%nat ->
  exists l,
    resolveRegionColors (Entry e) colors = inr l /\
    length l = 6%nat /\
    (forall colorId,
        SpeciesMetaEntry.enabledColorRegions e !! i = Some true ->
        index colors i = Some colorId ->
        colorId <> Json.Null ->
        strict_ne_zero colorId = true ->
        l !! i = Some (Some (Color.r (getColor colorId),
                             Color.g (getColor colorId),
                             Color.b (getColor colorId)))) /\
    (SpeciesMetaEntry.enabledColorRegions e !! i <> Some true ->
     l !! i = Some None) /\
    (nullish (index colors i) = true \/
     (exists n, index colors i = Some (Json.Num n) /\ strict_eq n zero = true) ->
     l !! i = Some None).
Proof.
  intros Hi.
  assert (Hl : for_push 6 (regionColor e colors) !! i = Some (regionColor e colors i))
    by now apply for_push_lookup.
  exists (for_push 6 (regionColor e colors)). split; [reflexivity |].
  split; [unfold for_push; now rewrite length_fmap, length_seq |].
  repeat split.
  - intros colorId Hon Hid Hnull Hnz. etrans; [exact Hl |]. unfold regionColor.
    rewrite Hon, Hid. cbn [default].
    destruct colorId; try contradiction; cbn [coalesce] in *; now rewrite Hnz.
  - intros Hoff. etrans; [exact Hl |]. unfold regionColor.
    destruct (SpeciesMetaEntry.enabledColorRegions e !! i) as [[|] |];
      [contradiction | reflexivity | reflexivity].
  - intros [Habsent | (n & Hid & Hzero)]; (etrans; [exact Hl |]); unfold regionColor.
    + destruct (index colors i) as [[| | | | |] |]; try discriminate Habsent;
        cbn [coalesce strict_ne_zero]; replace (strict_eq zero zero) with true
          by reflexivity; cbn [negb]; now rewrite andb_false_r.
    + rewrite Hid. cbn [coalesce strict_ne_zero]. rewrite Hzero. cbn [negb].
      now rewrite andb_false_r.
Qed.

End RegionFacts.

(** ** The handler at the sample requests *)
Section HandlerExamples.
Import Js Worker Samples.

(** Scenario 1: wild level 10 in slot 2 and no domesticated levels give
    level 11, whatever [level] the caller sent. *)
Lemma level_derived_witness :
  exists (fmt : Format) (call : RenderCall.t),
    Render fmt call ∈ World.log (handleInfographic (post rex_text) empty_world).2 /\
    CreatureData.level (RenderCall.creature call) = Json.Num (of_Z 11) /\
    CreatureData.levelHatched (RenderCall.creature call) = Json.Num (of_Z 11).
Proof.
  destruct (level_derived (post rex_text) empty_world rex_body
              (Json.Obj (creature_fields "Rex"
                         ++ [("level", Json.Num (of_Z 999));
                             ("colors", number_array [1; 0; 0; 2; 201; 7]%Z)]))
              "Rex"
              (of_Z <$> [0; 0; 10; 0; 0; 0; 0; 0; 0; 0; 0; 0]%Z)
              (of_Z <$> [0; 0; 0; 0; 0; 0; 0; 0; 0; 0; 0; 0]%Z)
              (Entry (Extract.speciesEntry rex statMultipliers)))
    as (t & evs & Ht & Hlog & Hlevels & Hcalled);
    try (vm_compute; reflexivity); [discriminate |].
  destruct (Hcalled (Json.Arr [], Json.Arr []) eq_refl eq_refl) as (fmt & call & Hin).
  destruct (Hlevels fmt call Hin) as [Hlevel Hhatched].
  exists fmt, call. injection Ht as <-.
  split; [| split; [exact Hlevel | exact Hhatched]].
  rewrite Hlog. apply elem_of_app. now right.
Defined.

Lemma null_body_throws_witness :
  exists what,
    handleInfographic (post "null") empty_world
    = (Throw (TypeError what),
       record [CacheMatch (buildCacheKey (post "null"))] empty_world).
Proof.
  apply (null_body_throws (post "null") empty_world); vm_compute; reflexivity.
Defined.

Lemma inherited_name_not_rejected_witness :
  ComputeStats (Inherited "constructor")
    ∈ World.log (handleInfographic (post constructor_text) empty_world).2 /\
  forall r, (handleInfographic (post constructor_text) empty_world).1 = Ok r ->
            Response.status r = 200%Z /\
            r <> error_response ("Unknown species: " +:+ "constructor").
Proof.
  apply (inherited_name_not_rejected (post constructor_text) empty_world
           constructor_body (Json.Obj (creature_fields "constructor")) "constructor"
           (items (number_array [0; 0; 10; 0; 0; 0; 0; 0; 0; 0; 0; 0]%Z))
           (items (number_array [0; 0; 0; 0; 0; 0; 0; 0; 0; 0; 0; 0]%Z)));
    try (vm_compute; reflexivity); [discriminate | events].
Defined.

(** Scenario 5: region 3 of the sample species is disabled; the request
    supplies the id 2 for it; the region gets no colour. *)
Lemma regionColors_resolved_witness :
  SpeciesMetaEntry.enabledColorRegions (Extract.speciesEntry rex statMultipliers) !! 3%nat
  = Some false /\
  index (number_array [1; 0; 0; 2; 201; 7]%Z) 3 = Some (Json.Num (of_Z 2)) /\
  exists l,
    resolveRegionColors (Entry (Extract.speciesEntry rex statMultipliers))
                        (number_array [1; 0; 0; 2; 201; 7]%Z) = inr l /\
    l !! 3%nat = Some None.
Proof.
  split; [reflexivity |]. split; [reflexivity |].
  destruct (regionColors_resolved (Extract.speciesEntry rex statMultipliers)
              (number_array [1; 0; 0; 2; 201; 7]%Z) 3)
    as (l & Hl & _ & _ & Hoff & _); [lia |].
  exists l. split; [exact Hl |]. apply Hoff. discriminate.
Defined.

(** Scenario 2: an unregistered species is answered 400 with its name in
    the message, and the cache is as it was. *)
Example unknown_species_unicorn :
  handleInfographic (post unicorn_text) empty_world
  = (Ok (error_response "Unknown species: Unicorn"),
     record [CacheMatch (buildCacheKey (post unicorn_text)); SpeciesLookup "Unicorn"]
            empty_world).
Proof. vm_compute. reflexivity. Qed.

(** Scenario 3: a request without [levelsDom] is answered 400 with a
    message that cites the field. *)
Example missing_levelsDom :
  handleInfographic (post no_dom_text) empty_world
  = (Ok (error_response MISSING_FIELDS),
     record [CacheMatch (buildCacheKey (post no_dom_text))] empty_world) /\
  exists k, String.index 0 "creature.levelsDom" MISSING_FIELDS = Some k.
Proof. split; [vm_compute; reflexivity | eexists; vm_compute; reflexivity]. Qed.

End HandlerExamples.

(** ** More on the species table *)
Section SpeciesTableFacts.
Import Extract.

(** X1: every entry of the extracted table has exactly six colour-region
    slots and twelve stat slots, whatever the upstream species holds. *)
Theorem table_entry_slots values mults name e :
  extractSpeciesMeta values mults !! name = Some e ->
  length (SpeciesMetaEntry.enabledColorRegions e) = 6%nat /\
  length (SpeciesMetaEntry.colorRegionNames e) = 6%nat /\
  length (SpeciesMetaEntry.usedStats e) = 12%nat /\
  length (SpeciesMetaEntry.fullStatsRaw e) = 12%nat /\
  length (SpeciesMetaEntry.statImprintMultipliers e) = 12%nat.
Proof.
  intros He. apply extractSpeciesMeta_entries in He as [sp [_ ->]].
  unfold speciesEntry. cbn. destruct (RawSpecies.colors sp); cbn; repeat split.
Qed.

(** X2: in every entry of the table a colour region is enabled exactly
    when it has a name. *)
Theorem region_enabled_iff_named values mults name e (i : nat) :
  extractSpeciesMeta values mults !! name = Some e ->
  (i < 6)%nat ->
  exists (enabled : bool) (regionName : option string),
    SpeciesMetaEntry.enabledColorRegions e !! i = Some enabled /\
    SpeciesMetaEntry.colorRegionNames e !! i = Some regionName /\
    (enabled = true <-> regionName <> None).
Proof.
  intros He Hi. apply extractSpeciesMeta_entries in He as [sp [_ ->]].
  unfold speciesEntry. cbn [SpeciesMetaEntry.enabledColorRegions
                            SpeciesMetaEntry.colorRegionNames].
  rewrite !list_lookup_fmap.
  destruct (RawSpecies.colors sp) as [colors |];
    rewrite for_push_lookup by assumption; cbn.
  - eexists _, _. split; [reflexivity |]. split; [reflexivity |].
    destruct (mjoin (colors !! i)); cbn; split; congruence.
  - eexists _, _. split; [reflexivity |]. split; [reflexivity |].
    split; congruence.
Qed.

Lemma assign_lookup (meta : gmap string SpeciesMetaEntry.t) key entry name :
  assign meta key entry !! name
  = if decide (key = name /\ key <> "__proto__") then Some entry else meta !! name.
Proof.
  unfold assign. destruct (decide (key = "__proto__")) as [Hp | Hp].
  - rewrite decide_False by tauto. reflexivity.
  - destruct (decide (key = name)) as [-> | Hne].
    + rewrite decide_True by tauto. apply lookup_insert_eq.
    + rewrite decide_False by tauto. now apply lookup_insert_ne.
Qed.

Lemma extractSpeciesMeta_snoc values mults l sp :
  ValuesJson.species values = l ++ [sp] ->
  extractSpeciesMeta values mults
  = assign (foldl (fun meta sp' =>
                     assign meta (RawSpecies.name sp') (speciesEntry sp' mults))
                  ∅ l)
           (RawSpecies.name sp) (speciesEntry sp mults).
Proof. intros Hl. unfold extractSpeciesMeta. now rewrite Hl, foldl_app. Qed.

(** The table after the species loop, read at one name: the entry of the
    last species of that name. *)
Lemma species_loop_lookup mults (l : list RawSpecies.t)
    (meta : gmap string SpeciesMetaEntry.t) name :
  foldl (fun meta sp => assign meta (RawSpecies.name sp) (speciesEntry sp mults))
        meta l !! name
  = match last (filter (fun sp => RawSpecies.name sp = name) l) with
    | Some sp => if decide (name = "__proto__") then meta !! name
                 else Some (speciesEntry sp mults)
    | None => meta !! name
    end.
Proof.
  revert meta. induction l as [| sp l IH] using rev_ind; intros meta; [reflexivity |].
  rewrite foldl_app, filter_app. cbn [foldl]. rewrite assign_lookup, IH.
  rewrite filter_cons, filter_nil.
  destruct (decide (RawSpecies.name sp = name)) as [Heq | Hne].
  - rewrite last_snoc.
    destruct (decide (RawSpecies.name sp = name /\ _)) as [[_ Hk] | Hk];
      destruct (decide (name = "__proto__")) as [Hp | Hp];
      try congruence; try reflexivity.
    + now destruct (last _).
    + exfalso. apply Hk. split; congruence.
  - destruct (decide (RawSpecies.name sp = name /\ _)) as [[Hk _] | _];
      [contradiction |].
    now rewrite app_nil_r.
Qed.

Lemma filter_none {A : Type} (P : A -> Prop) `{forall x, Decision (P x)}
    (l : list A) :
  (forall x, x ∈ l -> ~ P x) -> filter P l = [].
Proof.
  induction l as [| x l IH]; intros Hl; [reflexivity |].
  rewrite filter_cons_False by (apply Hl; left).
  apply IH. intros y Hy. apply Hl. now right.
Qed.

(** X3: when several upstream species share a name, the table holds the
    entry of the last one. *)
Theorem last_species_wins values mults l1 sp l2 :
  ValuesJson.species values = l1 ++ sp :: l2 ->
  (forall sp', sp' ∈ l2 -> RawSpecies.name sp' <> RawSpecies.name sp) ->
  RawSpecies.name sp <> "__proto__" ->
  extractSpeciesMeta values mults !! RawSpecies.name sp
  = Some (speciesEntry sp mults).
Proof.
  intros Hl Hlater Hp. unfold extractSpeciesMeta.
  rewrite species_loop_lookup, Hl, filter_app, filter_cons.
  rewrite decide_True by reflexivity.
  replace (filter _ l2) with (@nil RawSpecies.t).
  - rewrite last_snoc. now rewrite decide_False.
  - symmetry. apply filter_none. intros sp' Hin. now apply Hlater.
Qed.

(** X4: the names of the table are the names of the upstream species, but
    for [__proto__], which never becomes a key. *)
Theorem table_names values mults name :
  is_Some (extractSpeciesMeta values mults !! name) <->
  name <> "__proto__" /\
  exists sp, sp ∈ ValuesJson.species values /\ RawSpecies.name sp = name.
Proof.
  unfold extractSpeciesMeta. rewrite species_loop_lookup, lookup_empty.
  destruct (last _) as [sp |] eqn:Hlast.
  - assert (Hin : sp ∈ filter (fun sp => RawSpecies.name sp = name)
                         (ValuesJson.species values)).
    { apply last_Some in Hlast as [l' ->]. apply elem_of_app. right. left. }
    apply list_elem_of_filter in Hin as [Hname Hin].
    destruct (decide (name = "__proto__")) as [Hp | Hp]; split.
    + intros [? ?]; discriminate.
    + intros [Hn _]. contradiction.
    + intros _. split; [assumption |]. now exists sp.
    + intros _. eexists. reflexivity.
  - split; [intros [? ?]; discriminate |].
    intros [_ [sp [Hin Hname]]]. exfalso.
    apply last_None in Hlast.
    assert (Hf : sp ∈ filter (fun sp => RawSpecies.name sp = name)
                        (ValuesJson.species values))
      by (apply list_elem_of_filter; now split).
    rewrite Hlast in Hf. now apply elem_of_nil in Hf.
Qed.

(** The upstream species an entry of the table was built from. *)
Lemma table_entry_origin values mults name e :
  extractSpeciesMeta values mults !! name = Some e ->
  exists sp, sp ∈ ValuesJson.species values /\ RawSpecies.name sp = name /\
             e = speciesEntry sp mults.
Proof.
  unfold extractSpeciesMeta. rewrite species_loop_lookup, lookup_empty.
  destruct (last _) as [sp |] eqn:Hlast; [| discriminate].
  destruct (decide (name = "__proto__")); [discriminate |].
  intros [= <-]. exists sp.
  apply last_Some in Hlast as [l' Hl'].
  assert (Hin : sp ∈ filter (fun sp => RawSpecies.name sp = name)
                       (ValuesJson.species values))
    by (rewrite Hl'; apply elem_of_app; right; left).
  apply list_elem_of_filter in Hin as [Hname Hin]. now repeat split.
Qed.

(** X5: a stat slot of an entry is used exactly when the upstream species
    holds at least five numbers in that slot; a shorter array counts as no
    data. *)
Theorem used_iff_five_numbers values mults name e :
  extractSpeciesMeta values mults !! name = Some e ->
  exists sp,
    sp ∈ ValuesJson.species values /\ RawSpecies.name sp = name /\
    forall i : nat,
      (i < 12)%nat ->
      (SpeciesMetaEntry.usedStats e !! i = Some true <->
       exists stats raw,
         RawSpecies.fullStatsRaw sp = Some stats /\
         stats !! i = Some (Some raw) /\ (5 <= length raw)%nat).
Proof.
  intros He. apply table_entry_origin in He as (sp & Hin & Hname & ->).
  exists sp. split; [assumption |]. split; [assumption |]. intros i Hi.
  unfold speciesEntry. cbn [SpeciesMetaEntry.usedStats].
  rewrite !for_push_lookup by assumption. cbn [mjoin option_join].
  destruct (RawSpecies.fullStatsRaw sp) as [stats |]; cbn;
    [| split; [discriminate | intros (? & ? & [=] & _)]].
  destruct (stats !! i) as [[raw |] |] eqn:Hslot; cbn;
    try (split; [discriminate | intros (? & ? & [= <-] & Hs & _); congruence]).
  destruct raw as [| r0 [| r1 [| r2 [| r3 [| r4 rest]]]]]; cbn;
    (split;
     [ first [ discriminate
             | intros _; eexists _, _;
               split; [reflexivity |]; split; [eassumption |]; cbn; lia ]
     | intros (? & raw' & [= <-] & Hs & Hlen);
       rewrite Hslot in Hs; injection Hs as <-; cbn in Hlen;
       first [lia | reflexivity] ]).
Qed.

(** X6: a slot whose multiplier is absent from the preset ([null], or past
    the end of the array) is extracted with the identity multiplier: the
    first five numbers of the upstream slot come out unchanged. *)
Theorem missing_multiplier_keeps_slot values mults name e :
  extractSpeciesMeta values mults !! name = Some e ->
  exists sp,
    sp ∈ ValuesJson.species values /\ RawSpecies.name sp = name /\
    forall (i : nat) stats r0 r1 r2 r3 r4 rest,
      (i < 12)%nat ->
      mjoin (mults !! i) = None ->
      RawSpecies.fullStatsRaw sp = Some stats ->
      stats !! i = Some (Some (r0 :: r1 :: r2 :: r3 :: r4 :: rest)) ->
      is_double r1 = true -> is_double r2 = true ->
      is_double r3 = true -> is_double r4 = true ->
      SpeciesMetaEntry.fullStatsRaw e !! i = Some (Some (r0, r1, r2, r3, r4)).
Proof.
  intros He. apply table_entry_origin in He as (sp & Hin & Hname & ->).
  exists sp. split; [assumption |]. split; [assumption |].
  intros i stats r0 r1 r2 r3 r4 rest Hi Hmult Hstats Hslot H1 H2 H3 H4.
  unfold speciesEntry. cbn [SpeciesMetaEntry.fullStatsRaw].
  rewrite for_push_lookup, Hstats by assumption.
  cbn [fmap option_fmap option_map mjoin option_join].
  rewrite Hslot. cbn [mjoin option_join]. rewrite Hmult. cbn [default].
  unfold applyStatMultiplier, DEFAULT_STAT_MULT.
  rewrite (guarded_factor_mul r3 one H3), (guarded_factor_mul r4 one H4).
  rewrite !mul_one_r by assumption.
  now destruct (gt r3 zero), (gt r4 zero).
Qed.

End SpeciesTableFacts.

(** ** The handler and the cache *)
Section CacheFacts.
Import Js Worker Trace.
Context `{Runtime} `{Platform}.

#[local] Arguments record : simpl never.

Lemma steps_record (evs : list Event) (w : World.t) : steps w (record evs w) = evs.
Proof. unfold steps, record. cbn. now rewrite drop_app_length. Qed.

Lemma steps_app (w w' : World.t) (evs : list Event) :
  World.log w' = World.log w ++ evs -> steps w w' = evs.
Proof. intros Hlog. unfold steps. now rewrite Hlog, drop_app_length. Qed.

(** What a run past validation comes to: a 400 for an unknown species, an
    exception of the stat computation, the rasterizer or the renderer, or
    a rendered 200 that is stored under the key. *)
Lemma handleValidated_outcome (key : string) (body c speciesName : Json.t)
    (levelsWild levelsDom : Json.t) (w : World.t) :
  exists res w' evs,
    handleValidated key body c speciesName levelsWild levelsDom w = (res, w') /\
    World.log w' = World.log w ++ SpeciesLookup (to_string speciesName) :: evs /\
    ((res = Ok (error_response ("Unknown species: " +:+ to_string speciesName)) /\
      getSpeciesInfo (to_string speciesName) = None /\
      evs = [] /\ World.cache w' = World.cache w /\
      World.initialized w' = World.initialized w) \/
     (exists e, res = Throw e /\ World.cache w' = World.cache w /\
                CachePut key ∉ evs) \/
     (exists r, res = Ok r /\ Response.status r = 200%Z /\
                World.cache w' = <[key := r]> (World.cache w) /\
                CachePut key ∈ evs)).
Proof.
  destruct (getSpeciesInfo (to_string speciesName)) as [species |] eqn:Hfound.
  - destruct (handleValidated_found key body c speciesName levelsWild levelsDom
                species w Hfound)
      as [(e & _ & ->) | (values & image & evs & _ & Hsprite & ->)].
    + eexists _, _, [ComputeStats species]. split; [reflexivity |].
      split; [reflexivity |]. right. left. exists e.
      split; [reflexivity |]. split; [reflexivity |].
      intros Hin. events_in Hin.
    + match goal with
      | |- context [renderAndCache ?k ?b ?call ?w0] =>
          destruct (renderAndCache_cases k b call w0)
            as (res & w' & evs' & -> & Hlog & _ & _ & Hres)
      end.
      exists res, w', (ComputeStats species :: evs ++ evs').
      split; [reflexivity |]. split.
      { rewrite Hlog. unfold record. cbn. now rewrite <- !app_assoc. }
      right. destruct res as [r | e].
      * right. exists r. destruct Hres as (Hstatus & Hcache & Hput).
        split; [reflexivity |]. split; [assumption |]. split; [exact Hcache |].
        right. apply elem_of_app. now right.
      * left. exists e. destruct Hres as [Hcache Hput].
        split; [reflexivity |]. split; [exact Hcache |].
        intros Hin. apply elem_of_cons in Hin as [Hin | Hin]; [discriminate Hin |].
        apply elem_of_app in Hin as [Hin | Hin]; [| contradiction].
        eapply Forall_forall in Hsprite; [| exact Hin]. exact Hsprite.
  - exists (Ok (error_response ("Unknown species: " +:+ to_string speciesName))),
           (record [SpeciesLookup (to_string speciesName)] w), [].
    split.
    { unfold handleValidated.
      now rewrite (bind_ok _ _ _ _ _ (emit_run _ _)), Hfound. }
    split; [reflexivity |]. left. repeat split.
Qed.

(** What a run of the handler comes to on a cache miss. *)
Lemma handleInfographic_miss (request : Request.t) (w : World.t) :
  World.cache w !! buildCacheKey request = None ->
  exists res w' evs,
    handleInfographic request w = (res, w') /\
    World.log w' = World.log w ++ CacheMatch (buildCacheKey request) :: evs /\
    ((exists message, res = Ok (error_response message) /\
                      World.cache w' = World.cache w /\
                      World.initialized w' = World.initialized w /\
                      Forall early_step evs) \/
     (exists e, res = Throw e /\ World.cache w' = World.cache w /\
                CachePut (buildCacheKey request) ∉ evs) \/
     (exists r, res = Ok r /\ Response.status r = 200%Z /\
                World.cache w' = <[buildCacheKey request := r]> (World.cache w) /\
                CachePut (buildCacheKey request) ∈ evs)).
Proof.
  intros Hmiss. unfold handleInfographic.
  rewrite (bind_ok _ _ _ _ _ (cache_match_run _ _)), Hmiss.
  destruct (JSON_parse (Request.body request)) as [body |].
  2: { eexists _, _, []. split; [reflexivity |]. split; [reflexivity |].
       left. eexists. repeat split. constructor. }
  assert (Hnull : body = Json.Null \/ body <> Json.Null)
    by (destruct body; first [now left | now right]).
  destruct Hnull as [-> | Hbody].
  { eexists _, _, []. split; [reflexivity |]. split; [reflexivity |].
    right. left. eexists. split; [reflexivity |]. split; [reflexivity |].
    intros Hin. events_in Hin. }
  destruct (member_not_null body "creature" Hbody) as [-> _].
  cbn [lift]. unfold mbind at 1, M_bind at 1, mret at 1, M_ret at 1.
  match goal with
  | |- context [if ?b1 then _ else if ?b2 then _ else _] =>
      destruct b1; [| destruct b2]
  end.
  1, 2: eexists _, _, []; (split; [reflexivity |]); (split; [reflexivity |]);
        left; eexists; repeat split; constructor.
  match goal with
  | |- context [handleValidated ?k ?b ?c ?sn ?lw ?ld ?w0] =>
      destruct (handleValidated_outcome k b c sn lw ld w0)
        as (res & w' & evs & -> & Hlog & Hcases)
  end.
  exists res, w', (SpeciesLookup
                     (to_string (coalesce
                        (optional_member (get body "creature") "speciesName")
                        Json.Null)) :: evs).
  split; [reflexivity |]. split.
  { rewrite Hlog. unfold record. cbn. now rewrite <- app_assoc. }
  destruct Hcases as [(-> & _ & -> & Hcache & Hinit)
                     | [(e & -> & Hcache & Hput) | (r & -> & Hstatus & Hcache & Hput)]].
  - left. eexists. split; [reflexivity |]. repeat split; try assumption.
    repeat constructor.
  - right. left. exists e. split; [reflexivity |]. split; [assumption |].
    intros Hin. apply elem_of_cons in Hin as [Hin | Hin];
      [discriminate Hin | contradiction].
  - right. right. exists r. repeat split; try assumption. now right.
Qed.

Lemma handleInfographic_hit (request : Request.t) (w : World.t) (hit : Response.t) :
  World.cache w !! buildCacheKey request = Some hit ->
  handleInfographic request w
  = (Ok hit, record [CacheMatch (buildCacheKey request)] w).
Proof.
  intros Hhit. unfold handleInfographic.
  now rewrite (bind_ok _ _ _ _ _ (cache_match_run _ _)), Hhit.
Qed.

(** X7: once a request was rendered, a request with the same body text is
    answered with the very same response out of the cache, after the
    cache probe alone: no species lookup, no stat computation, no sprite
    fetch, no rendering, no second cache write. *)
Theorem repeated_request_served_from_cache (request request' : Request.t)
    (w w' : World.t) (r : Response.t) :
  World.cache w !! buildCacheKey request = None ->
  handleInfographic request w = (Ok r, w') ->
  Response.status r = 200%Z ->
  Request.body request' = Request.body request ->
  handleInfographic request' w'
  = (Ok r, record [CacheMatch (buildCacheKey request)] w').
Proof.
  intros Hmiss Hrun Hstatus Hbody.
  assert (Hkey : buildCacheKey request' = buildCacheKey request)
    by (unfold buildCacheKey; now rewrite Hbody).
  destruct (handleInfographic_miss request w Hmiss)
    as (res & w1 & evs & Hrun' & _ & Hcases).
  rewrite Hrun in Hrun'. injection Hrun' as <- <-.
  assert (Hstored : World.cache w' !! buildCacheKey request = Some r).
  { destruct Hcases as [(message & [= ->] & _)
                       | [(e & [=] & _) | (r' & [= <-] & _ & -> & _)]].
    - discriminate Hstatus.
    - apply lookup_insert_eq. }
  rewrite <- Hkey in Hstored |- *. now apply handleInfographic_hit.
Qed.


(** X9: on a cache miss every response of the handler is either an error
    response, a 400 with a JSON [error] message, sent after no other step
    than the species lookup and without a cache write, or a 200 that is
    stored in the cache under the key of the request. *)
Theorem miss_answers_400_or_caches_200 (request : Request.t) (w w' : World.t)
    (r : Response.t) :
  World.cache w !! buildCacheKey request = None ->
  handleInfographic request w = (Ok r, w') ->
  (exists message,
      r = error_response message /\
      Forall early_step (steps w w') /\
      World.cache w' = World.cache w) \/
  (Response.status r = 200%Z /\
   CachePut (buildCacheKey request) ∈ steps w w' /\
   World.cache w' !! buildCacheKey request = Some r).
Proof.
  intros Hmiss Hrun.
  destruct (handleInfographic_miss request w Hmiss)
    as (res & w1 & evs & Hrun' & Hlog & Hcases).
  rewrite Hrun in Hrun'. injection Hrun' as <- <-.
  rewrite (steps_app _ _ _ Hlog).
  destruct Hcases as [(message & [= ->] & Hcache & _ & Hearly)
                     | [(e & [=] & _) | (r' & [= <-] & Hstatus & Hcache & Hput)]].
  - left. exists message. split; [reflexivity |]. split; [| assumption].
    constructor; [exact I | assumption].
  - right. split; [assumption |]. split; [now right |].
    rewrite Hcache. apply lookup_insert_eq.
Qed.

End CacheFacts.

(** ** Sprites, base64 and the digest *)
Section SpriteFacts.
Import Js Worker Trace Charset.
Context `{Runtime} `{Platform}.

#[local] Arguments record : simpl never.


Lemma chunks_join {A : Type} (n fuel : nat) (l : list A) :
  (0 < n)%nat -> (length l <= fuel)%nat -> mjoin (chunks fuel n l) = l.
Proof.
  intros Hn. revert l. induction fuel as [| fuel IH]; intros l Hl.
  - destruct l; [reflexivity | cbn in Hl; lia].
  - destruct l as [| x l]; [reflexivity |].
    cbn [chunks]. cbn [mjoin list_join]. rewrite IH.
    + apply take_drop.
    + rewrite length_drop. cbn [length] in *. lia.
Qed.

Lemma string_of_list_byte_app (a b : list byte) :
  string_of_list_byte (a ++ b) = string_of_list_byte a +:+ string_of_list_byte b.
Proof.
  unfold string_of_list_byte.
  induction a as [| x a IH]; [reflexivity |]. cbn. now rewrite IH.
Qed.

Lemma append_assoc (a b c : string) : (a +:+ b) +:+ c = a +:+ (b +:+ c).
Proof.
  induction a as [| ch a IH]; [reflexivity |].
  change (String ch ((a +:+ b) +:+ c) = String ch (a +:+ (b +:+ c))).
  now rewrite IH.
Qed.

Lemma append_empty_r (a : string) : a +:+ "" = a.
Proof.
  induction a as [| ch a IH]; [reflexivity |].
  change (String ch (a +:+ "") = String ch a). now rewrite IH.
Qed.

Lemma binary_of_chunks (cs : list (list byte)) (acc : string) :
  foldl (fun binary chunk => binary +:+ string_of_list_byte chunk) acc cs
  = acc +:+ string_of_list_byte (mjoin cs).
Proof.
  revert acc. induction cs as [| c cs IH]; intros acc.
  - cbn. now rewrite append_empty_r.
  - cbn [foldl mjoin list_join]. now rewrite IH, string_of_list_byte_app, append_assoc.
Qed.

(** X11: cutting the bytes into chunks of 8192 does not show in the
    result: [uint8ArrayToBase64] is [btoa] of the one binary string of all
    the bytes, for an array of any length. *)
Theorem uint8ArrayToBase64_whole (bytes : list byte) :
  uint8ArrayToBase64 bytes = btoa (string_of_list_byte bytes).
Proof.
  unfold uint8ArrayToBase64. f_equal.
  rewrite binary_of_chunks, chunks_join by lia. reflexivity.
Qed.

Lemma list_ascii_of_string_app (a b : string) :
  list_ascii_of_string (a +:+ b) = list_ascii_of_string a ++ list_ascii_of_string b.
Proof.
  induction a as [| ch a IH]; [reflexivity |].
  change (ch :: list_ascii_of_string (a +:+ b)
          = ch :: (list_ascii_of_string a ++ list_ascii_of_string b)).
  now rewrite IH.
Qed.

Lemma concat_chars (l : list string) (P : ascii -> Prop) :
  Forall (fun s => Forall P (list_ascii_of_string s)) l ->
  Forall P (list_ascii_of_string (String.concat "" l)).
Proof.
  induction 1 as [| s l Hs Hl IH]; [constructor |].
  destruct l as [| s' l']; [exact Hs |].
  change (String.concat "" (s :: s' :: l'))
    with (s +:+ "" +:+ String.concat "" (s' :: l')).
  rewrite !list_ascii_of_string_app. apply Forall_app. split; [exact Hs |].
  apply Forall_app. split; [constructor | exact IH].
Qed.

Lemma byte_hex_chars (b : byte) :
  Forall (fun ch => lower_hex ch = true)
         (list_ascii_of_string (padStart 2 "0" (toString16 (Byte.to_N b)))).
Proof. destruct b; repeat constructor. Qed.

(** X12: the digest in a cache key is written in the digits [0-9a-f]
    only. *)
Theorem cache_key_digest_is_lower_hex (request : Request.t) :
  exists digest : string,
    buildCacheKey request = CACHE_PREFIX +:+ digest /\
    Forall (fun ch => lower_hex ch = true) (list_ascii_of_string digest).
Proof.
  eexists. split; [reflexivity |].
  apply concat_chars, Forall_fmap, Forall_forall. intros b _. apply byte_hex_chars.
Qed.

End SpriteFacts.

(** ** The rasterizer *)
Section RasterizerFacts.
Import Js Worker Trace.
Context `{Runtime} `{Platform}.

#[local] Arguments record : simpl never.





End RasterizerFacts.

(** ** Integers as doubles *)
Section IntegerFacts.
Local Open Scope Z_scope.

(** Rounding leaves a canonical mantissa alone. *)
Lemma round_canonical (s : bool) (m : positive) (e : Z) :
  bounded prec emax m e = true ->
  binary_round_aux prec emax s (Z.pos m) e loc_Exact = S754_finite s m e.
Proof.
  intros Hb. unfold bounded, canonical_mantissa in Hb.
  apply andb_true_iff in Hb as [Hc He]. apply Z.eqb_eq in Hc.
  unfold binary_round_aux, shr_fexp, Zdigits2. rewrite Hc, Z.sub_diag.
  cbn [shr shr_record_of_loc shr_m loc_of_shr_record round_nearest_even].
  rewrite Hc, Z.sub_diag. cbn [shr shr_m]. now rewrite He.
Qed.

Lemma digits2_size (p : positive) : digits2_pos p = Pos.size p.
Proof. induction p as [p IH | p IH |]; cbn; now rewrite ?IH. Qed.

Lemma digits2_bound (p : positive) :
  Z.pos p < 2 ^ 53 -> Z.pos (digits2_pos p) <= 53.
Proof.
  intros Hp. rewrite digits2_size.
  pose proof (Pos.size_le p) as Hle.
  apply Pos2Z.pos_le_pos in Hle. rewrite Pos2Z.inj_pow in Hle.
  assert (Hlt : 2 ^ Z.pos (Pos.size p) < 2 ^ 54).
  { change (2 ^ 54) with (2 * 2 ^ 53). lia. }
  apply Z.pow_lt_mono_r_iff in Hlt; lia.
Qed.

Lemma iter_xO_digits (p k : positive) :
  digits2_pos (Pos.iter xO p k) = (digits2_pos p + k)%positive.
Proof.
  induction k as [| k IH] using Pos.peano_ind.
  - cbn. lia.
  - rewrite Pos.iter_succ. cbn [digits2_pos]. rewrite IH. lia.
Qed.

Lemma iter_xO_value (p k : positive) :
  Z.pos (Pos.iter xO p k) = Z.pos p * 2 ^ Z.pos k.
Proof.
  induction k as [| k IH] using Pos.peano_ind.
  - cbn. lia.
  - rewrite Pos.iter_succ, Pos2Z.inj_xO, IH, Pos2Z.inj_succ, Z.pow_succ_r by lia.
    lia.
Qed.

(** A positive integer below 2^53 is a double with the mantissa shifted
    to 53 digits. *)
Lemma of_Z_pos (p : positive) :
  Z.pos p < 2 ^ 53 ->
  exists m,
    of_Z (Z.pos p) = S754_finite false m (Z.pos (digits2_pos p) - 53) /\
    Z.pos m = Z.pos p * 2 ^ (53 - Z.pos (digits2_pos p)).
Proof.
  intros Hp. pose proof (digits2_bound p Hp) as Hd.
  unfold of_Z, binary_normalize, binary_round, shl_align.
  assert (Hf : fexp prec emax (Z.pos (digits2_pos p) + 0) = Z.pos (digits2_pos p) - 53)
    by (unfold fexp, emin, prec, emax; lia).
  rewrite Hf.
  destruct (Z.pos (digits2_pos p) - 53 - 0) as [| k | k] eqn:Hk; [| lia |].
  - exists p. replace (Z.pos (digits2_pos p) - 53) with 0 by lia. split.
    + apply round_canonical. unfold bounded, canonical_mantissa.
      apply andb_true_iff. split; [apply Z.eqb_eq | apply Z.leb_le].
      * unfold fexp, emin, prec, emax; lia.
      * unfold prec, emax; lia.
    + replace (53 - Z.pos (digits2_pos p)) with 0 by lia. lia.
  - exists (Pos.iter xO p k). split.
    + apply round_canonical. unfold bounded, canonical_mantissa.
      apply andb_true_iff. split; [apply Z.eqb_eq | apply Z.leb_le].
      * rewrite iter_xO_digits. unfold fexp, emin, prec, emax; lia.
      * unfold prec, emax; lia.
    + rewrite iter_xO_value. f_equal. f_equal. lia.
Qed.

(** On positive integers below 2^53 the equality of doubles is the
    equality of integers. *)
Lemma strict_eq_of_Z (a b : Z) :
  0 < a < 2 ^ 53 -> 0 < b < 2 ^ 53 ->
  strict_eq (of_Z a) (of_Z b) = true <-> a = b.
Proof.
  intros Ha Hb.
  destruct a as [| p | p]; [lia | | lia]. destruct b as [| q | q]; [lia | | lia].
  destruct (of_Z_pos p) as (m & -> & Hm); [lia |].
  destruct (of_Z_pos q) as (n & -> & Hn); [lia |].
  pose proof (digits2_bound p ltac:(lia)) as Hdp.
  pose proof (digits2_bound q ltac:(lia)) as Hdq.
  unfold strict_eq, SFeqb, SFcompare.
  destruct (Z.compare_spec (Z.pos (digits2_pos p) - 53) (Z.pos (digits2_pos q) - 53))
    as [He | He | He].
  - fold (Pos.compare m n). destruct (Pos.compare_spec m n) as [Hmn | Hmn | Hmn].
    + split; [intros _ | reflexivity].
      assert (Hd : Z.pos (digits2_pos p) = Z.pos (digits2_pos q)) by lia.
      rewrite Hd in Hm. subst m.
      assert (Hpow : 0 < 2 ^ (53 - Z.pos (digits2_pos q)))
        by (apply Z.pow_pos_nonneg; lia).
      f_equal. nia.
    + split; [discriminate |]. intros [= ->]. lia.
    + split; [discriminate |]. intros [= ->]. lia.
  - split; [discriminate |]. intros [= ->]. lia.
  - split; [discriminate |]. intros [= ->]. lia.
Qed.

Lemma of_Z_pos_not_zero (a : Z) :
  0 < a < 2 ^ 53 -> strict_eq (of_Z a) zero = false.
Proof.
  intros Ha. destruct a as [| p | p]; [lia | | lia].
  destruct (of_Z_pos p) as (m & -> & _); [lia |]. reflexivity.
Qed.

End IntegerFacts.

(** ** The colour lookup *)
Section ColorFacts.
Import Js Worker ColorTable.
Context `{Runtime} `{Platform}.
Local Open Scope Z_scope.

(** The loop of [colorMap.set] read at one key: the value stored for the
    last entry whose id is the key. *)
Lemma colorMap_loop (n : number) (l : list ArkColorEntry.t) (acc : option Color.t) :
  foldl (fun found entry =>
           if same_value_zero (of_Z (ArkColorEntry.id entry)) n then
             let '(r, g, b) := arkColorToSrgb entry in
             Some {| Color.r := r; Color.g := g; Color.b := b;
                     Color.a := of_Z 255 |}
           else found)
        acc l
  = match last (filter (fun entry =>
                          same_value_zero (of_Z (ArkColorEntry.id entry)) n = true) l) with
    | Some entry => Some (stored entry)
    | None => acc
    end.
Proof.
  revert acc. induction l as [| entry l IH] using rev_ind; intros acc; [reflexivity |].
  rewrite foldl_app, filter_app, IH. cbn [foldl].
  rewrite filter_cons, filter_nil.
  destruct (same_value_zero (of_Z (ArkColorEntry.id entry)) n) eqn:Hid.
  - rewrite decide_True by reflexivity. rewrite last_snoc.
    unfold stored. now destruct (arkColorToSrgb entry) as [[r g] b].
  - rewrite decide_False by discriminate. now rewrite app_nil_r.
Qed.

Lemma colorMap_get_last (n : number) :
  colorMap_get (Json.Num n)
  = stored <$> last (filter (fun entry =>
                               same_value_zero (of_Z (ArkColorEntry.id entry)) n = true)
                            colorsJson).
Proof. unfold colorMap_get. rewrite colorMap_loop. now destruct (last _). Qed.

(** The colour found under a key whose last entry in the table is
    [entry]. *)
Lemma colorMap_get_found (n : number) (l1 l2 : list ArkColorEntry.t)
    (entry : ArkColorEntry.t) :
  colorsJson = l1 ++ entry :: l2 ->
  same_value_zero (of_Z (ArkColorEntry.id entry)) n = true ->
  (forall later, later ∈ l2 ->
                 same_value_zero (of_Z (ArkColorEntry.id later)) n = false) ->
  colorMap_get (Json.Num n) = Some (stored entry).
Proof.
  intros Hl Hid Hlater. rewrite colorMap_get_last, Hl, filter_app, filter_cons.
  rewrite decide_True by assumption.
  replace (filter _ l2) with (@nil ArkColorEntry.t).
  - now rewrite last_snoc.
  - symmetry. apply filter_none. intros later Hin. rewrite (Hlater later Hin).
    discriminate.
Qed.

(** X14: every colour the lookup returns is opaque: its alpha is 255, for an
    id of the table, an unknown id, zero, or a value that is no number. *)
Theorem getColor_always_opaque (colorId : Json.t) :
  Color.a (getColor colorId) = of_Z 255.
Proof.
  unfold getColor. destruct (negb (strict_ne_zero colorId)); [reflexivity |].
  destruct colorId as [| b | n | s | l | members]; try reflexivity.
  rewrite colorMap_get_last. destruct (last _) as [entry |]; [| reflexivity].
  cbn. unfold stored. now destruct (arkColorToSrgb entry) as [[r g] b].
Qed.

(** X15: an id that no entry of the table carries, and likewise a value that
    is no number, resolves to light gray. *)
Theorem getColor_unknown_is_light_gray (colorId : Json.t) :
  (forall n entry,
      colorId = Json.Num n -> entry ∈ colorsJson ->
      same_value_zero (of_Z (ArkColorEntry.id entry)) n = false) ->
  getColor colorId = LIGHT_GRAY.
Proof.
  intros Hunknown. unfold getColor.
  destruct (negb (strict_ne_zero colorId)); [reflexivity |].
  destruct colorId as [| b | n | s | l | members]; try reflexivity.
  rewrite colorMap_get_last.
  replace (filter _ colorsJson) with (@nil ArkColorEntry.t); [reflexivity |].
  symmetry. apply filter_none. intros entry Hin.
  rewrite (Hunknown n entry eq_refl Hin). discriminate.
Qed.

Lemma same_value_of_Z (a b : Z) :
  0 < a < 2 ^ 53 -> 0 < b < 2 ^ 53 ->
  same_value_zero (of_Z a) (of_Z b) = true <-> a = b.
Proof.
  intros Ha Hb. rewrite <- (strict_eq_of_Z a b Ha Hb).
  destruct a as [| p | p]; [lia | | lia].
  destruct (of_Z_pos p) as (m & -> & _); [lia |]. reflexivity.
Qed.

Lemma extractColors_id_range values entry :
  entry ∈ Extract.extractColors values ->
  (length (Extract.ValuesJson.colorDefinitions values) <= 200)%nat ->
  201 + Z.of_nat (length (Extract.ValuesJson.dyeDefinitions values)) <= 2 ^ 53 ->
  0 < ArkColorEntry.id entry < 2 ^ 53.
Proof.
  intros Hin HN HM.
  assert (Hid : ArkColorEntry.id entry ∈ ArkColorEntry.id <$> Extract.extractColors values)
    by (apply list_elem_of_fmap; now exists entry).
  rewrite extractColors_ids in Hid.
  apply elem_of_app in Hid as [Hid | Hid];
    apply list_elem_of_fmap in Hid as [k [-> Hk]]; apply elem_of_seq in Hk; lia.
Qed.

(** X16: what the extraction writes, the lookup finds: with the colour table
    extracted from an upstream document of at most 200 base colours, the
    id of every entry resolves to the colour stored for that entry. *)
Theorem extracted_color_found values (entry : ArkColorEntry.t) :
  colorsJson = Extract.extractColors values ->
  (length (Extract.ValuesJson.colorDefinitions values) <= 200)%nat ->
  201 + Z.of_nat (length (Extract.ValuesJson.dyeDefinitions values)) <= 2 ^ 53 ->
  entry ∈ Extract.extractColors values ->
  getColor (Json.Num (of_Z (ArkColorEntry.id entry))) = stored entry.
Proof.
  intros Htable HN HM Hin.
  pose proof (extractColors_id_range values entry Hin HN HM) as Hrange.
  assert (Hnodup : NoDup (ArkColorEntry.id <$> Extract.extractColors values)).
  { rewrite extractColors_ids. apply NoDup_app. repeat split.
    - apply NoDup_fmap_2; [apply Nat2Z.inj' | apply NoDup_seq].
    - intros z Hz1 Hz2.
      apply list_elem_of_fmap in Hz1 as [a [-> Ha]].
      apply list_elem_of_fmap in Hz2 as [b [Hab Hb]].
      apply elem_of_seq in Ha. apply elem_of_seq in Hb. lia.
    - apply NoDup_fmap_2; [apply Nat2Z.inj' | apply NoDup_seq]. }
  unfold getColor. cbn [strict_ne_zero].
  rewrite of_Z_pos_not_zero by assumption. cbn [negb].
  destruct (list_elem_of_split _ _ Hin) as (l1 & l2 & Hsplit).
  rewrite (colorMap_get_found _ l1 l2 entry); [reflexivity | congruence | |].
  - now apply same_value_of_Z.
  - intros later Hlater.
    destruct (same_value_zero _ _) eqn:Hsame; [exfalso | reflexivity].
    assert (Hlin : later ∈ Extract.extractColors values)
      by (rewrite Hsplit; apply elem_of_app; right; now right).
    apply same_value_of_Z in Hsame;
      [| now apply (extractColors_id_range values) | assumption].
    rewrite Hsplit, fmap_app, fmap_cons in Hnodup.
    apply NoDup_app in Hnodup as (_ & _ & Hnodup).
    apply NoDup_cons in Hnodup as [Hnotin _]. apply Hnotin.
    apply list_elem_of_fmap. now exists later.
Qed.

(** X17: past 200 base colours the ids run into the ids of the dyes, and the
    later entry wins: the id 201 resolves to the first dye, and the 201st
    base colour cannot be looked up. *)
Theorem crowded_base_color_shadowed values name rgba dyeName dyeRgba :
  colorsJson = Extract.extractColors values ->
  Extract.ValuesJson.colorDefinitions values !! 200%nat = Some (name, rgba) ->
  Extract.ValuesJson.dyeDefinitions values !! 0%nat = Some (dyeName, dyeRgba) ->
  201 + Z.of_nat (length (Extract.ValuesJson.dyeDefinitions values)) <= 2 ^ 53 ->
  Extract.extractColors values !! 200%nat
  = Some {| ArkColorEntry.id := 201; ArkColorEntry.name := name;
            ArkColorEntry.linearRgba := rgba; ArkColorEntry.isDye := false |} /\
  getColor (Json.Num (of_Z 201))
  = stored {| ArkColorEntry.id := 201; ArkColorEntry.name := dyeName;
              ArkColorEntry.linearRgba := dyeRgba; ArkColorEntry.isDye := true |}.
Proof.
  intros Htable Hbase Hdye HM.
  split; [exact (extractColors_base values 200 name rgba Hbase) |].
  pose proof (extractColors_dye values 0 dyeName dyeRgba Hdye) as Hentry.
  cbn [Z.of_nat Z.add] in Hentry.
  set (N := length (Extract.ValuesJson.colorDefinitions values)) in *.
  apply take_drop_middle in Hentry.
  unfold getColor.
  replace (strict_ne_zero (Json.Num (of_Z 201))) with true by reflexivity.
  cbn [negb].
  rewrite (colorMap_get_found _ _ _ _ (eq_trans Htable (eq_sym Hentry)));
    [reflexivity | reflexivity |].
  intros later Hlater.
  apply list_elem_of_lookup in Hlater as [k Hk]. rewrite lookup_drop in Hk.
  assert (Hj : exists j : nat, (1 <= j)%nat /\
                 Extract.extractColors values !! (N + j)%nat = Some later).
  { exists (S k). split; [lia |]. rewrite <- Hk. f_equal. lia. }
  destruct Hj as (j & Hj1 & Hj).
  assert (Hlen : (j < length (Extract.ValuesJson.dyeDefinitions values))%nat).
  { apply lookup_lt_Some in Hj. unfold Extract.extractColors in Hj.
    rewrite length_app, !length_imap in Hj. fold N in Hj. lia. }
  destruct (lookup_lt_is_Some_2 _ _ Hlen) as [[n' rgba'] Hdj].
  pose proof (extractColors_dye values j n' rgba' Hdj) as Hdyej. fold N in Hdyej.
  rewrite Hj in Hdyej. injection Hdyej as ->. cbn [ArkColorEntry.id].
  destruct (same_value_zero _ _) eqn:Hsame; [exfalso | reflexivity].
  apply same_value_of_Z in Hsame; lia.
Qed.

End ColorFacts.

(** ** The species list *)
Section SpeciesListFacts.
Import Js Worker.
Context `{Runtime} `{Platform}.

(** X18: the list of [GET /api/species] and the lookup of the handler agree
    on the species table: no name is listed twice, every listed name
    resolves to its table entry, and a name that resolves without being
    listed is a property name of [Object.prototype]. *)
Theorem species_list_resolves :
  NoDup getSpeciesNames /\
  (forall name,
      name ∈ getSpeciesNames <-> exists e, getSpeciesInfo name = Some (Entry e)) /\
  (forall name v,
      getSpeciesInfo name = Some v -> name ∉ getSpeciesNames ->
      name ∈ Object_prototype_keys /\ v = Inherited name).
Proof.
  assert (Hlisted : forall name,
             name ∈ getSpeciesNames <-> is_Some (speciesMetaJson !! name)).
  { intros name. unfold getSpeciesNames. rewrite list_elem_of_fmap. split.
    - intros [[k e] [-> Hin]]. apply elem_of_map_to_list in Hin. now exists e.
    - intros [e He]. exists (name, e). split; [reflexivity |].
      now apply elem_of_map_to_list. }
  split; [apply NoDup_fst_map_to_list |]. split.
  - intros name. rewrite Hlisted. unfold getSpeciesInfo. split.
    + intros [e ->]. now exists e.
    + intros [e He]. destruct (speciesMetaJson !! name) as [e' |]; [now exists e' |].
      destruct (bool_decide _); discriminate He.
  - intros name v Hv Hnot. rewrite Hlisted in Hnot. unfold getSpeciesInfo in Hv.
    destruct (speciesMetaJson !! name) as [e |]; [exfalso; apply Hnot; now exists e |].
    destruct (bool_decide (name ∈ Object_prototype_keys)) eqn:Hproto; [| discriminate Hv].
    apply bool_decide_eq_true_1 in Hproto. injection Hv as <-. now split.
Qed.

End SpeciesListFacts.

(** ** Configuration *)
Section ConfigFacts.
Import Js Worker.
Context `{Runtime} `{Platform}.

Lemma lookup_member_loop (members : list (string * Json.t)) (key : string)
    (acc : option Json.t) :
  foldl (fun found '(k, v) => if String.eqb k key then Some v else found) acc members
  = match lookup_member members key with
    | Some v => Some v
    | None => acc
    end.
Proof.
  unfold lookup_member. revert acc.
  induction members as [| [k v] members IH] using rev_ind; intros acc; [reflexivity |].
  rewrite !foldl_app. cbn [foldl].
  destruct (String.eqb k key); [reflexivity | apply IH].
Qed.

(** Of a spread of two objects the later binding of a key is its value. *)
Lemma lookup_member_app (a b : list (string * Json.t)) (key : string) :
  lookup_member (a ++ b) key
  = match lookup_member b key with
    | Some v => Some v
    | None => lookup_member a key
    end.
Proof. unfold lookup_member at 1. rewrite foldl_app. apply lookup_member_loop. Qed.

Lemma lookup_member_single (k key : string) (v : Json.t) :
  lookup_member [(k, v)] key = if String.eqb k key then Some v else None.
Proof. reflexivity. Qed.

Lemma lookup_member_filter (members : list (string * Json.t)) (dropped key : string) :
  lookup_member (filter (fun kv => kv.1 ≠ dropped) members) key
  = if decide (key = dropped) then None else lookup_member members key.
Proof.
  induction members as [| [k v] members IH] using rev_ind.
  - now destruct (decide (key = dropped)).
  - rewrite filter_app, !lookup_member_app, IH, filter_cons, filter_nil.
    cbn [fst]. rewrite lookup_member_single.
    destruct (decide (k ≠ dropped)) as [Hk | Hk].
    + rewrite lookup_member_single.
      destruct (String.eqb_spec k key) as [-> | Hne]; [| reflexivity].
      now rewrite decide_False.
    + apply dec_stable in Hk. subst k.
      destruct (String.eqb_spec dropped key) as [Heq | Hne];
        destruct (decide (key = dropped)); first [congruence | reflexivity].
Qed.

(** X19: the configuration handed to the renderer: the options of the request
    override the defaults key by key, but for [format], which is never
    taken from the request. *)
Theorem config_overrides_defaults (body : Json.t) (key : string) :
  let options := own_properties (coalesce (get body "options") (Json.Obj [])) in
  lookup_member (mergeConfig body) key
  = if decide (key = "format") then lookup_member DEFAULT_CONFIG key
    else match lookup_member options key with
         | Some v => Some v
         | None => lookup_member DEFAULT_CONFIG key
         end.
Proof.
  intros options. unfold mergeConfig. fold options.
  rewrite lookup_member_app, lookup_member_filter.
  now destruct (decide (key = "format")).
Qed.

End ConfigFacts.

(** ** The uploader and the keys of the worker *)
Section UploadFacts.
Import Js Worker Trace Upload.
Context `{Runtime} `{Platform}.

#[local] Arguments record : simpl never.

Lemma string_of_list_ascii_app (a b : list ascii) :
  string_of_list_ascii (a ++ b) = string_of_list_ascii a +:+ string_of_list_ascii b.
Proof.
  induction a as [| ch a IH]; [reflexivity |].
  change (String ch (string_of_list_ascii (a ++ b))
          = String ch (string_of_list_ascii a +:+ string_of_list_ascii b)).
  now rewrite IH.
Qed.

(** A name that ends with a suffix is the rest followed by the suffix. *)
Lemma endsWith_split (s suffix : string) :
  endsWith s suffix = true ->
  s = slice_off (length (list_ascii_of_string suffix)) s +:+ suffix.
Proof.
  unfold endsWith, slice_off. intros Hends%bool_decide_eq_true_1.
  set (cs := list_ascii_of_string s) in *.
  set (suf := list_ascii_of_string suffix) in *.
  transitivity (string_of_list_ascii
                  (take (length cs - length suf) cs ++ drop (length cs - length suf) cs)).
  - rewrite take_drop. subst cs. symmetry. apply string_of_list_ascii_of_string.
  - rewrite string_of_list_ascii_app, Hends. subst suf.
    now rewrite string_of_list_ascii_of_string.
Qed.

Lemma endsWith_app (a x suffix : string) :
  (length (list_ascii_of_string suffix) <= length (list_ascii_of_string x))%nat ->
  endsWith (a +:+ x) suffix = endsWith x suffix.
Proof.
  intros Hlen. unfold endsWith. rewrite list_ascii_of_string_app, length_app.
  rewrite drop_app_ge by lia.
  set (n := length (list_ascii_of_string a)) in *.
  set (m := length (list_ascii_of_string x)) in *.
  set (k := length (list_ascii_of_string suffix)) in *.
  now replace (n + m - k - n)%nat with (m - k)%nat by lia.
Qed.

Lemma slice_off_app (k : nat) (a x : string) :
  (k <= length (list_ascii_of_string x))%nat ->
  slice_off k (a +:+ x) = a +:+ slice_off k x.
Proof.
  intros Hlen. unfold slice_off. rewrite list_ascii_of_string_app, length_app.
  rewrite take_app_ge by lia. rewrite string_of_list_ascii_app.
  rewrite string_of_list_ascii_of_string.
  set (n := length (list_ascii_of_string a)) in *.
  set (m := length (list_ascii_of_string x)) in *.
  now replace (n + m - k - n)%nat with (m - k)%nat by lia.
Qed.

(** The sprite stage probes the bucket for two keys, and for no other. *)
Lemma acquireImage_probes (speciesName game : Json.t) (species : SpeciesValue)
    (colors : Json.t) (w : World.t) :
  let suffix := if strict_eq_string game "ASA" then "_ASA" else "" in
  let baseKey := to_string speciesName +:+ suffix +:+ ".png" in
  let maskKey := to_string speciesName +:+ suffix +:+ "_m.png" in
  exists image evs,
    acquireImage speciesName game species colors w
    = (Ok image, record (SpriteGet baseKey :: SpriteGet maskKey :: evs) w) /\
    forall key, SpriteGet key ∉ evs.
Proof.
  intros suffix baseKey maskKey. unfold acquireImage.
  fold suffix. fold baseKey. fold maskKey.
  unfold try_catch, mbind, M_bind, mret, M_ret, emit, modify, lift, throw.
  destruct (SPRITES_get baseKey) as [e1 | [baseBytes |]];
    destruct (SPRITES_get maskKey) as [e2 | [maskBytes |]];
    try destruct (resolveRegionColors species colors) as [e3 | regionColors];
    try (cbn [lift]; unfold mret, M_ret, throw;
         destruct (colorizeCreature baseBytes maskBytes regionColors)
           as [e4 | imageBytes]);
    repeat (cbn -[uint8ArrayToBase64 append];
            unfold mbind, M_bind, mret, M_ret, emit, modify, lift, throw);
    rewrite ?record_record; cbn [app]; eexists _, _;
    (split; [reflexivity |]); intros key Hin; events_in Hin.
Qed.

(** X20: every file the uploader accepts is named after its species, game and
    mask flag in the flat layout, and that name is a key the worker
    probes the bucket for when asked for that species and game. *)
Theorem accepted_file_is_probed (f : string) (p : ParsedFile)
    (species : SpeciesValue) (colors : Json.t) (w : World.t) :
  parseFilename f = Some p ->
  filename p = f /\
  f = Upload.species p
      +:+ (match Upload.game p with ASA => "_ASA" | ASE => "" end)
      +:+ (if isMask p then "_m.png" else ".png") /\
  SpriteGet f
    ∈ steps w (acquireImage (Json.Str (Upload.species p))
                            (Json.Str (game_name (Upload.game p)))
                            species colors w).2.
Proof.
  intros Hp.
  assert (Hshape : filename p = f /\
                   f = Upload.species p
                       +:+ (match Upload.game p with ASA => "_ASA" | ASE => "" end)
                       +:+ (if isMask p then "_m.png" else ".png")).
  { unfold parseFilename in Hp.
    destruct (endsWith f ".png") eqn:Hpng; [| discriminate Hp]. cbn [negb] in Hp.
    destruct (skipped f); [discriminate Hp |].
    apply endsWith_split in Hpng.
    change (length (list_ascii_of_string ".png")) with 4%nat in Hpng.
    remember (slice_off 4 f) as name eqn:Hname. clear Hname.
    destruct (endsWith name "_m") eqn:Hm.
    - apply endsWith_split in Hm.
      change (length (list_ascii_of_string "_m")) with 2%nat in Hm.
      remember (slice_off 2 name) as name' eqn:Hname'. clear Hname'.
      destruct (endsWith name' "_ASA") eqn:Hasa.
      + apply endsWith_split in Hasa.
        change (length (list_ascii_of_string "_ASA")) with 4%nat in Hasa.
        remember (slice_off 4 name') as sp eqn:Hsp. clear Hsp.
        injection Hp as <-. cbn. split; [reflexivity |].
        rewrite Hpng, Hm, Hasa. now rewrite !append_assoc.
      + injection Hp as <-. cbn. split; [reflexivity |].
        rewrite Hpng, Hm. now rewrite !append_assoc.
    - destruct (endsWith name "_ASA") eqn:Hasa.
      + apply endsWith_split in Hasa.
        change (length (list_ascii_of_string "_ASA")) with 4%nat in Hasa.
        remember (slice_off 4 name) as sp eqn:Hsp. clear Hsp.
        injection Hp as <-. cbn. split; [reflexivity |].
        rewrite Hpng, Hasa. now rewrite !append_assoc.
      + injection Hp as <-. cbn. split; [reflexivity |]. exact Hpng. }
  destruct Hshape as [Hfile Hf]. split; [exact Hfile |]. split; [exact Hf |].
  destruct (acquireImage_probes (Json.Str (Upload.species p))
              (Json.Str (game_name (Upload.game p))) species colors w)
    as (image & evs & -> & _).
  cbn [snd]. rewrite steps_record.
  rewrite Hf at 1. destruct (Upload.game p), (isMask p); cbn; events.
Qed.

(** X21: the other way round: the flat name of a species, game and mask flag
    parses back to these three, unless the name is skipped as a variant,
    for a species name that does not itself end in [_m] or [_ASA]. *)
Theorem flat_name_parses_back (sp : string) (g : Game) (m : bool) :
  let f := sp +:+ (match g with ASA => "_ASA" | ASE => "" end)
              +:+ (if m then "_m.png" else ".png") in
  skipped f = false ->
  endsWith sp "_m" = false ->
  endsWith sp "_ASA" = false ->
  parseFilename f
  = Some {| Upload.species := sp; Upload.game := g; isMask := m; filename := f |}.
Proof.
  intros f Hskip Hm Hasa. unfold parseFilename. rewrite Hskip.
  destruct g, m; subst f;
    try change ("" +:+ ".png") with ".png" in *;
    try change ("" +:+ "_m.png") with "_m.png" in *;
    try change ("_ASA" +:+ ".png") with "_ASA.png" in *;
    try change ("_ASA" +:+ "_m.png") with "_ASA_m.png" in *;
    repeat first
      [ rewrite endsWith_app by (cbn; lia)
      | rewrite slice_off_app by (cbn; lia)
      | rewrite append_empty_r
      | rewrite Hm | rewrite Hasa
      | progress change (slice_off 4 ".png") with ""
      | progress change (slice_off 4 "_m.png") with "_m"
      | progress change (slice_off 4 "_ASA.png") with "_ASA"
      | progress change (slice_off 4 "_ASA_m.png") with "_ASA_m"
      | progress change (slice_off 2 "_m") with ""
      | progress change (slice_off 2 "_ASA_m") with "_ASA"
      | progress change (slice_off 4 "_ASA") with ""
      | progress change (endsWith ".png" ".png") with true
      | progress change (endsWith "_m.png" ".png") with true
      | progress change (endsWith "_ASA.png" ".png") with true
      | progress change (endsWith "_ASA_m.png" ".png") with true
      | progress change (endsWith "_m" "_m") with true
      | progress change (endsWith "_ASA_m" "_m") with true
      | progress change (endsWith "_ASA" "_m") with false
      | progress change (endsWith "_ASA" "_ASA") with true
      | progress cbn [negb] ];
    reflexivity.
Qed.

Lemma no_slash_app (a b : string) :
  "/"%char ∉ list_ascii_of_string a -> "/"%char ∉ list_ascii_of_string b ->
  "/"%char ∉ list_ascii_of_string (a +:+ b).
Proof.
  intros Ha Hb. rewrite list_ascii_of_string_app.
  intros [Hin | Hin]%elem_of_app; contradiction.
Qed.

(** X22: the keys under which the uploader stores the files are not the keys
    the worker probes: for a species name without a slash, no probe of
    the sprite stage is a key of the form [game/species/base.png] or
    [game/species/mask.png]. *)
Theorem probes_miss_nested_keys (speciesName game : Json.t) (species : SpeciesValue)
    (colors : Json.t) (w : World.t) (key : string) :
  "/"%char ∉ list_ascii_of_string (to_string speciesName) ->
  SpriteGet key ∈ steps w (acquireImage speciesName game species colors w).2 ->
  forall uploadGame uploadSpecies uploadMask,
    key <> r2Key uploadGame uploadSpecies uploadMask.
Proof.
  intros Hflat Hprobe g sp m Hkey.
  destruct (acquireImage_probes speciesName game species colors w)
    as (image & evs & Hrun & Hrest).
  rewrite Hrun in Hprobe. cbn [snd] in Hprobe. rewrite steps_record in Hprobe.
  assert (Hslash : "/"%char ∈ list_ascii_of_string key).
  { rewrite Hkey. unfold r2Key. rewrite !list_ascii_of_string_app.
    apply elem_of_app. right. apply elem_of_app. left. left. }
  assert (Hsuffix : "/"%char ∉ list_ascii_of_string
                      (if strict_eq_string game "ASA" then "_ASA" else "")).
  { destruct (strict_eq_string game "ASA"); intros Hin; cbn in Hin; events_in Hin. }
  apply elem_of_cons in Hprobe as [Hprobe | Hprobe];
    [| apply elem_of_cons in Hprobe as [Hprobe | Hprobe]; [| now apply Hrest in Hprobe]];
    injection Hprobe as ->; revert Hslash; repeat apply no_slash_app;
    try assumption; intros Hin; cbn in Hin; events_in Hin.
Qed.

End UploadFacts.

(** ** Defaults of the creature *)
Section DefaultFacts.
Import Js Worker.
Context `{Runtime} `{Platform}.

(** X23: a request without [colors] (absent or [null]) gets the default of six
    zero ids, and with it no region is coloured, whatever regions the
    species has enabled. *)
Theorem missing_colors_leave_regions_plain (c speciesName levelsWild levelsDom : Json.t)
    (values : Json.t * Json.t) (e : SpeciesMetaEntry.t) :
  nullish (get c "colors") = true ->
  resolveRegionColors (Entry e)
    (CreatureData.colors (buildCreature c speciesName levelsWild levelsDom values))
  = inr (replicate 6 None).
Proof.
  intros Hcolors. unfold buildCreature. cbn [CreatureData.colors].
  assert (Hdefault : coalesce (get c "colors") (Json.Arr (replicate 6 (Json.Num zero)))
                     = Json.Arr (replicate 6 (Json.Num zero))).
  { destruct (get c "colors") as [[| | | | |] |]; first [reflexivity | discriminate Hcolors]. }
  rewrite Hdefault. unfold resolveRegionColors, for_push, regionColor.
  cbn [seq fmap list_fmap replicate index lookup list_lookup coalesce strict_ne_zero].
  replace (strict_eq zero zero) with true by reflexivity. cbn [negb].
  now rewrite !andb_false_r.
Qed.

End DefaultFacts.

(** ** The further theorems at the sample data *)
Section TableExamples.
Import Extract Samples MoreSamples.

Lemma table_entry_slots_witness :
  extractSpeciesMeta values statMultipliers !! "Rex"
  = Some (speciesEntry rex statMultipliers) /\
  length (SpeciesMetaEntry.enabledColorRegions (speciesEntry rex statMultipliers)) = 6%nat /\
  length (SpeciesMetaEntry.colorRegionNames (speciesEntry rex statMultipliers)) = 6%nat /\
  length (SpeciesMetaEntry.usedStats (speciesEntry rex statMultipliers)) = 12%nat /\
  length (SpeciesMetaEntry.fullStatsRaw (speciesEntry rex statMultipliers)) = 12%nat /\
  length (SpeciesMetaEntry.statImprintMultipliers (speciesEntry rex statMultipliers))
  = 12%nat.
Proof.
  assert (Hrex : extractSpeciesMeta values statMultipliers !! "Rex"
                 = Some (speciesEntry rex statMultipliers))
    by (vm_compute; reflexivity).
  split; [exact Hrex |].
  exact (table_entry_slots values statMultipliers "Rex" _ Hrex).
Defined.

(** Region 3 of the sample species has no name upstream and is not
    enabled. *)
Lemma region_enabled_iff_named_witness :
  extractSpeciesMeta values statMultipliers !! "Rex"
  = Some (speciesEntry rex statMultipliers) /\
  exists (enabled : bool) (regionName : option string),
    SpeciesMetaEntry.enabledColorRegions (speciesEntry rex statMultipliers) !! 3%nat
    = Some enabled /\
    SpeciesMetaEntry.colorRegionNames (speciesEntry rex statMultipliers) !! 3%nat
    = Some regionName /\
    (enabled = true <-> regionName <> None).
Proof.
  assert (Hrex : extractSpeciesMeta values statMultipliers !! "Rex"
                 = Some (speciesEntry rex statMultipliers))
    by (vm_compute; reflexivity).
  split; [exact Hrex |].
  apply (region_enabled_iff_named values statMultipliers "Rex" _ 3 Hrex). lia.
Defined.

Lemma last_species_wins_witness :
  ValuesJson.species twins = [rex] ++ rex_again :: [] /\
  extractSpeciesMeta twins statMultipliers !! "Rex"
  = Some (speciesEntry rex_again statMultipliers).
Proof.
  split; [reflexivity |].
  apply (last_species_wins twins statMultipliers [rex] rex_again []).
  - reflexivity.
  - intros sp' Hin. now apply elem_of_nil in Hin.
  - discriminate.
Defined.

Lemma used_iff_five_numbers_witness :
  extractSpeciesMeta values statMultipliers !! "Rex"
  = Some (speciesEntry rex statMultipliers) /\
  exists sp,
    sp ∈ ValuesJson.species values /\ RawSpecies.name sp = "Rex" /\
    forall i : nat,
      (i < 12)%nat ->
      (SpeciesMetaEntry.usedStats (speciesEntry rex statMultipliers) !! i = Some true <->
       exists stats raw,
         RawSpecies.fullStatsRaw sp = Some stats /\
         stats !! i = Some (Some raw) /\ (5 <= length raw)%nat).
Proof.
  assert (Hrex : extractSpeciesMeta values statMultipliers !! "Rex"
                 = Some (speciesEntry rex statMultipliers))
    by (vm_compute; reflexivity).
  split; [exact Hrex |].
  exact (used_iff_five_numbers values statMultipliers "Rex" _ Hrex).
Defined.

(** Slot 2 of the sample species has no multiplier in the sample preset
    and comes out as it stands upstream. *)
Lemma missing_multiplier_keeps_slot_witness :
  extractSpeciesMeta values statMultipliers !! "Rex"
  = Some (speciesEntry rex statMultipliers) /\
  mjoin (statMultipliers !! 2%nat) = None /\
  SpeciesMetaEntry.fullStatsRaw (speciesEntry rex statMultipliers) !! 2%nat
  = Some (Some (of_Z 1550, half, zero, half, zero)).
Proof.
  assert (Hrex : extractSpeciesMeta values statMultipliers !! "Rex"
                 = Some (speciesEntry rex statMultipliers))
    by (vm_compute; reflexivity).
  split; [exact Hrex |]. split; [reflexivity |].
  destruct (missing_multiplier_keeps_slot values statMultipliers "Rex" _ Hrex)
    as (sp & Hin & _ & Hslot).
  apply elem_of_cons in Hin as [-> | Hin]; [| now apply elem_of_nil in Hin].
  eapply (Hslot 2%nat _ (of_Z 1550) half zero half zero []);
    first [lia | reflexivity].
Defined.

End TableExamples.

Section WorkerExamples.
Import Js Worker Trace ColorTable Samples MoreSamples.

(** Scenario 1 sent twice, the second time to another path: the second
    answer is the stored response of the first. *)
Lemma repeated_request_served_from_cache_witness :
  exists (r : Response.t) (w' : World.t),
    handleInfographic (post rex_text) empty_world = (Ok r, w') /\
    Response.status r = 200%Z /\
    Request.body rex_elsewhere = Request.body (post rex_text) /\
    handleInfographic rex_elsewhere w'
    = (Ok r, record [CacheMatch (buildCacheKey (post rex_text))] w').
Proof.
  destruct (handleInfographic (post rex_text) empty_world) as [res w'] eqn:Hrun.
  assert (Hres : exists r, res = Ok r /\ Response.status r = 200%Z).
  { vm_compute in Hrun. injection Hrun as <- _. eexists. split; reflexivity. }
  destruct Hres as (r & -> & Hstatus).
  exists r, w'. split; [reflexivity |]. split; [exact Hstatus |].
  split; [reflexivity |].
  apply (repeated_request_served_from_cache (post rex_text) rex_elsewhere
           empty_world w' r);
    [vm_compute; reflexivity | exact Hrun | exact Hstatus | reflexivity].
Defined.

(** Scenario 2: the 400 for an unregistered species comes after the cache
    probe and the species lookup, and nothing is stored. *)
Lemma miss_answers_400_or_caches_200_witness :
  let w' := record [CacheMatch (buildCacheKey (post unicorn_text));
                    SpeciesLookup "Unicorn"] empty_world in
  let r := error_response "Unknown species: Unicorn" in
  handleInfographic (post unicorn_text) empty_world = (Ok r, w') /\
  ((exists message,
       r = error_response message /\
       Forall early_step (steps empty_world w') /\
       World.cache w' = World.cache empty_world) \/
   (Response.status r = 200%Z /\
    CachePut (buildCacheKey (post unicorn_text)) ∈ steps empty_world w' /\
    World.cache w' !! buildCacheKey (post unicorn_text) = Some r)).
Proof.
  intros w' r.
  assert (Hrun : handleInfographic (post unicorn_text) empty_world = (Ok r, w'))
    by (vm_compute; reflexivity).
  split; [exact Hrun |].
  apply (miss_answers_400_or_caches_200 (post unicorn_text) empty_world w' r);
    [vm_compute; reflexivity | exact Hrun].
Defined.

(** No colour of the sample table has the id 7. *)
Lemma getColor_unknown_is_light_gray_witness :
  getColor (Json.Num (of_Z 7)) = LIGHT_GRAY.
Proof.
  apply (getColor_unknown_is_light_gray (Json.Num (of_Z 7))).
  intros n entry [= <-] Hin.
  change colorsJson with (Extract.extractColors values) in Hin. cbn in Hin.
  repeat (apply elem_of_cons in Hin as [-> | Hin]; [reflexivity |]).
  now apply elem_of_nil in Hin.
Defined.

(** The dye of the sample document is found under the id 201. *)
Lemma extracted_color_found_witness :
  black_dye ∈ Extract.extractColors values /\
  getColor (Json.Num (of_Z 201)) = stored black_dye.
Proof.
  assert (Hin : black_dye ∈ Extract.extractColors values) by (cbn; events).
  split; [exact Hin |].
  apply (extracted_color_found values black_dye); [reflexivity | cbn; lia | | exact Hin].
  cbn. lia.
Defined.

(** With the 201 base colours of [crowded], the id 201 resolves to the
    dye. *)
Lemma crowded_base_color_shadowed_witness :
  Extract.extractColors crowded !! 200%nat
  = Some {| ArkColorEntry.id := 201; ArkColorEntry.name := "Base";
            ArkColorEntry.linearRgba := opaque; ArkColorEntry.isDye := false |} /\
  @getColor crowded_platform (Json.Num (of_Z 201))
  = @stored crowded_platform
      {| ArkColorEntry.id := 201; ArkColorEntry.name := "Dye";
         ArkColorEntry.linearRgba := opaque; ArkColorEntry.isDye := true |}.
Proof.
  apply (@crowded_base_color_shadowed crowded_platform crowded "Base" opaque "Dye" opaque);
    [reflexivity | vm_compute; reflexivity | reflexivity | cbn; lia].
Defined.

(** The mask of the sample species for ASA. *)
Lemma accepted_file_is_probed_witness :
  Upload.parseFilename "Rex_ASA_m.png" = Some rex_mask_file /\
  SpriteGet "Rex_ASA_m.png"
    ∈ steps empty_world
        (acquireImage (Json.Str "Rex") (Json.Str "ASA")
                      (Entry (Extract.speciesEntry rex statMultipliers))
                      Json.Null empty_world).2.
Proof.
  assert (Hp : Upload.parseFilename "Rex_ASA_m.png" = Some rex_mask_file)
    by (vm_compute; reflexivity).
  split; [exact Hp |].
  apply (accepted_file_is_probed "Rex_ASA_m.png" rex_mask_file
           (Entry (Extract.speciesEntry rex statMultipliers)) Json.Null empty_world Hp).
Defined.

Lemma flat_name_parses_back_witness :
  Upload.parseFilename ("Rex" +:+ "_ASA" +:+ ".png")
  = Some {| Upload.species := "Rex"; Upload.game := Upload.ASA;
            Upload.isMask := false;
            Upload.filename := "Rex" +:+ "_ASA" +:+ ".png" |}.
Proof.
  apply (flat_name_parses_back "Rex" Upload.ASA false); reflexivity.
Defined.

(** The worker asks for [Rex_ASA.png]; the uploader stores the file under
    [ASA/Rex/base.png]. *)
Lemma probes_miss_nested_keys_witness :
  SpriteGet "Rex_ASA.png"
    ∈ steps empty_world
        (acquireImage (Json.Str "Rex") (Json.Str "ASA")
                      (Entry (Extract.speciesEntry rex statMultipliers))
                      Json.Null empty_world).2 /\
  "Rex_ASA.png" <> Upload.r2Key "ASA" "Rex" false.
Proof.
  assert (Hprobe : SpriteGet "Rex_ASA.png"
            ∈ steps empty_world
                (acquireImage (Json.Str "Rex") (Json.Str "ASA")
                              (Entry (Extract.speciesEntry rex statMultipliers))
                              Json.Null empty_world).2)
    by (vm_compute; events).
  split; [exact Hprobe |].
  apply (probes_miss_nested_keys (Json.Str "Rex") (Json.Str "ASA")
           (Entry (Extract.speciesEntry rex statMultipliers)) Json.Null empty_world
           "Rex_ASA.png"); [| exact Hprobe].
  intros Hin. cbn in Hin. events_in Hin.
Defined.

(** The plain sample creature carries no colours. *)
Lemma missing_colors_leave_regions_plain_witness :
  nullish (get (Json.Obj (creature_fields "Rex")) "colors") = true /\
  resolveRegionColors (Entry (Extract.speciesEntry rex statMultipliers))
    (CreatureData.colors
       (buildCreature (Json.Obj (creature_fields "Rex")) (Json.Str "Rex")
                      Json.Null Json.Null (Json.Null, Json.Null)))
  = inr (replicate 6 None).
Proof.
  split; [reflexivity |].
  apply (missing_colors_leave_regions_plain (Json.Obj (creature_fields "Rex"))).
  reflexivity.
Defined.

End WorkerExamples.
